(** * Faria-Lima-Optimizer: the result analysis script

    A shallow embedding of [analysis/portfolio_analysis.py] and the
    properties of its four stages: the best-portfolio finder, the
    composition plotter, the benchmark analyzer and the variation analyzer,
    sequenced by [main].

    Python floats are IEEE 754 binary64 values; they are modelled by the
    Standard Library's [spec_float] with precision 53 and maximal exponent
    1024, so that every comparison and every arithmetic step below rounds
    as the interpreter's does.  A parsed JSON object is a finite map from
    keys to values.  The results directory is a list of named entries in
    the order the operating system enumerates them.  Console output, chart
    commands and file writes are recorded as a trace of events. *)

From stdpp Require Import gmap strings list sorting.
From Stdlib Require Import ZArith Lia SpecFloat.

Open Scope Z_scope.

(** ** Binary64 numbers *)

Module F64.

Definition prec : Z := 53.
Definition emax : Z := 1024.

Definition mul : spec_float -> spec_float -> spec_float := SFmul prec emax.
Definition div : spec_float -> spec_float -> spec_float := SFdiv prec emax.
Definition add : spec_float -> spec_float -> spec_float := SFadd prec emax.

(** [x < y], [x <= y] and [x == y] of the interpreter; every comparison
    with a NaN is false. *)
Definition lt : spec_float -> spec_float -> bool := SFltb.
Definition le : spec_float -> spec_float -> bool := SFleb.
Definition eq : spec_float -> spec_float -> bool := SFeqb.

(** The float of an integer, and of the decimal literal [m / 10^k]
    (correctly rounded: both operands of the division are exact for the
    literals used here). *)
Definition of_Z (z : Z) : spec_float := binary_normalize prec emax z 0 false.
Definition dec (m : Z) (k : Z) : spec_float := div (of_Z m) (of_Z (10 ^ k)).

Definition neg_inf : spec_float := S754_infinity true.

Definition is_nan (x : spec_float) : bool :=
  match x with S754_nan => true | _ => false end.

(** A finite number: neither an infinity nor a NaN. *)
Definition finite (x : spec_float) : bool :=
  match x with S754_zero _ | S754_finite _ _ _ => true | _ => false end.

(** Left-to-right sum, as the builtin [sum] computes it. *)
Definition sum (l : list spec_float) : spec_float := foldl add (of_Z 0) l.

End F64.

Abbreviation float := spec_float.

(** Arithmetic is evaluated on request only. *)
Arguments F64.of_Z : simpl never.
Arguments F64.dec : simpl never.
Arguments F64.mul : simpl never.
Arguments F64.div : simpl never.
Arguments F64.add : simpl never.
Arguments F64.lt : simpl never.
Arguments F64.le : simpl never.
Arguments F64.eq : simpl never.

(** ** Result records, benchmark rows and the results directory *)

(** One asset entry of a portfolio: [{"Ticker": ..., "Weight": ...}]. *)
Record stock := Stock { Ticker : string; Weight : float }.

(** The JSON values a result file holds.  A JSON integer literal is
    represented by the float of the same value, which compares and formats
    alike. *)
Inductive value :=
| VNull
| VNum (x : float)
| VStr (s : string)
| VStocks (l : list stock).

(** One line of the benchmark log. *)
Module Bench.
Record row := Row { TimeMs : float; ExecutionMode : string }.
End Bench.

Inductive file :=
| Json (data : gmap string value)   (* a file [json.load] parses to an object *)
| Csv (rows : list Bench.row)       (* a log [pd.read_csv] parses *)
| Image                             (* a chart written by [plt.savefig] *)
| Other.                            (* anything else *)

(** The entries of a directory, in the order the system enumerates them. *)
Abbreviation directory := (list (string * file)).

Record path := Path { dirname : string; basename : string }.

Definition RESULTS_DIR : string := "../results".

Definition os_path_join (dir name : string) : path := Path dir name.

(** ** Exceptions, events and the interpreter monad *)

Inductive exn :=
| UnboundLocalError (name : string)
| KeyError (key : string)
| TypeError
| ValueError
| FileNotFoundError (p : path)
| JSONDecodeError
| ParserError.

(** A fragment of a printed or drawn line: literal text, a line break, a
    float formatted with [digits] decimals ([f"{x:.2f}"]), an integer. *)
Inductive piece :=
| Txt (s : string)
| Nl
| Fix (digits : nat) (x : float)
| Int (n : nat).

(** A row of [groupby(...).agg(['count', 'mean', 'std', 'min', 'max'])]. *)
Record stats := Stats {
  st_count : nat; st_mean : float; st_std : float; st_min : float; st_max : float }.

Inductive chart :=
| Figure (width height : Z)
| BarPlot (bars : list (string * float))
| BoxPlot (points : list (string * float))
| BoxPlotOf (points : list (value * value))
| Bar (bars : list (string * float))
| Text (x : nat) (y : float) (label : list piece)
| Title (t : list piece)
| YLabel (s : string)
| XLabel (s : string)
| XTicks (rotation : Z)
| TightLayout.

Inductive event :=
| Print (line : list piece)
| PrintTable (t : list (string * stats))
| Draw (c : chart)
| SaveFig (p : path)
| Show.

Inductive outcome (A : Type) :=
| Returns (a : A)
| Raises (e : exn).
Arguments Returns {A} a.
Arguments Raises {A} e.

(** What a computation leaves behind: the directory, the events in the
    order they happened, and a value or the exception that ended it. *)
Record run (A : Type) := Run {
  dir_after : directory;
  trace : list event;
  result : outcome A }.
Arguments Run {A} _ _ _.
Arguments dir_after {A} _.
Arguments trace {A} _.
Arguments result {A} _.

Definition Py (A : Type) : Type := directory -> run A.

#[global] Instance Py_ret : MRet Py := fun A a d => Run d [] (Returns a).

#[global] Instance Py_bind : MBind Py := fun A B k m d =>
  match m d with
  | Run d1 t1 (Returns a) =>
      match k a d1 with Run d2 t2 r => Run d2 (t1 ++ t2) r end
  | Run d1 t1 (Raises e) => Run d1 t1 (Raises e)
  end.

Definition raise {A} (e : exn) : Py A := fun d => Run d [] (Raises e).

Definition emit (e : event) : Py unit := fun d => Run d [e] (Returns tt).

Definition print (line : list piece) : Py unit := emit (Print line).

Definition draw (c : chart) : Py unit := emit (Draw c).

(** [for x in l: s = body x s] *)
Fixpoint for_each {A S : Type} (body : A -> S -> Py S) (l : list A) (s : S) : Py S :=
  match l with
  | [] => mret s
  | x :: l' => s' ← body x s; for_each body l' s'
  end.

(** [for x in l: body x] *)
Definition for_ {A : Type} (body : A -> Py unit) (l : list A) : Py unit :=
  for_each (fun x _ => body x) l tt.

(** *** The file system *)

Definition starts_with (p s : string) : bool := String.prefix p s.

Definition ends_with (p s : string) : bool :=
  String.eqb (String.substring (String.length s - String.length p)
                               (String.length p) s) p
  && bool_decide (String.length p <= String.length s)%nat.

(** [fnmatch(name, prefix + "*" + suffix)] *)
Definition fnmatch (prefix suffix name : string) : bool :=
  starts_with prefix name
  && ends_with suffix name
  && bool_decide (String.length prefix + String.length suffix <= String.length name)%nat.

(** [glob.glob(os.path.join(dir, prefix + "*" + suffix))]: the matching
    entries, in enumeration order. *)
Definition glob (dir prefix suffix : string) : Py (list path) := fun d =>
  Run d [] (Returns
    (if String.eqb dir RESULTS_DIR
     then os_path_join dir <$> filter (fun n => fnmatch prefix suffix n = true) d.*1
     else [])).

Fixpoint lookup_file (name : string) (d : directory) : option file :=
  match d with
  | [] => None
  | (n, f) :: d' => if String.eqb n name then Some f else lookup_file name d'
  end.

Definition resolve (p : path) (d : directory) : option file :=
  if String.eqb (dirname p) RESULTS_DIR then lookup_file (basename p) d else None.

Definition os_path_exists (p : path) : Py bool := fun d =>
  Run d [] (Returns (bool_decide (is_Some (resolve p d)))).

Definition open (p : path) : Py file := fun d =>
  match resolve p d with
  | Some f => Run d [] (Returns f)
  | None => Run d [] (Raises (FileNotFoundError p))
  end.

(** Writing an entry: an existing name keeps its place, a new one is
    enumerated after the others. *)
Fixpoint write_file (name : string) (f : file) (d : directory) : directory :=
  match d with
  | [] => [(name, f)]
  | (n, g) :: d' =>
      if String.eqb n name then (n, f) :: d' else (n, g) :: write_file name f d'
  end.

(** [plt.savefig(p, dpi=300)] *)
Definition savefig (p : path) : Py unit := fun d =>
  Run (if String.eqb (dirname p) RESULTS_DIR then write_file (basename p) Image d else d)
      [SaveFig p] (Returns tt).

(** [plt.show()] *)
Definition show : Py unit := emit Show.

(** ** Dictionaries, formatting and data frames *)

(** [d.get(key, default)] *)
Definition get (d : gmap string value) (key : string) (default : value) : value :=
  match d !! key with Some v => v | None => default end.

(** [d[key]] *)
Definition getitem (d : gmap string value) (key : string) : Py value :=
  match d !! key with Some v => mret v | None => raise (KeyError key) end.

(** [a > b]; a number against a string, list or [None] raises. *)
Definition py_gt (a b : value) : Py bool :=
  match a, b with
  | VNum x, VNum y => mret (F64.lt y x)
  | _, _ => raise TypeError
  end.

(** [f"{v:.<digits>f}"] *)
Definition fmt (digits : nat) (v : value) : Py piece :=
  match v with
  | VNum x => mret (Fix digits x)
  | VStr _ => raise ValueError
  | _ => raise TypeError
  end.

(** Reading a local variable that may not have been assigned. *)
Definition local {A} (name : string) (v : option A) : Py A :=
  match v with Some a => mret a | None => raise (UnboundLocalError name) end.

(** [f"{p}"] for a path. *)
Definition path_str (p : path) : string := dirname p +:+ "/" +:+ basename p.

(** The aggregations of pandas, which the script calls and does not define:
    the mean, standard deviation, minimum and maximum of a group, and the
    mean of a column.

    The script does not check what a result file holds.  On a frame whose
    [ExecutionMode] and [SharpeRatio] columns are not a column of labels
    and a column of numbers, what [sns.boxplot] and [groupby(...).agg(...)]
    do is theirs to decide: [boxplot_other] is the exception the plot
    raises on such columns, if any, and [agg_other] the exception the
    aggregation raises or the table it gives. *)
Class Pandas := {
  agg_mean : list float -> float;
  agg_std : list float -> float;
  agg_min : list float -> float;
  agg_max : list float -> float;
  series_mean : list float -> float;
  boxplot_other : list (value * value) -> option exn;
  agg_other : list (value * value) -> exn + list (string * stats) }.

(** [df.sort_values('Weight', ascending=False)]: descending, rows with a
    NaN weight last, rows of equal weight in their original order.
    [comes_first x y] says that a row of weight [x] may precede one of
    weight [y]. *)
Definition comes_first (x y : float) : bool :=
  F64.is_nan y || (negb (F64.is_nan x) && negb (F64.lt x y)).

Fixpoint insert_row (s : stock) (l : list stock) : list stock :=
  match l with
  | [] => [s]
  | t :: l' =>
      if comes_first (Weight s) (Weight t) then s :: l else t :: insert_row s l'
  end.

Definition sort_values (df : list stock) : list stock := foldr insert_row [] df.

(** The sorted index of [df.groupby(key)]. *)
Fixpoint insert_key (k : string) (ks : list string) : list string :=
  match ks with
  | [] => [k]
  | k' :: ks' =>
      match String.compare k k' with
      | Lt => k :: ks
      | Eq => ks
      | Gt => k' :: insert_key k ks'
      end
  end.

Definition group_keys (df : list (string * float)) : list string :=
  foldr insert_key [] df.*1.

(** The values of one group, in row order. *)
Definition group (k : string) (df : list (string * float)) : list float :=
  (filter (fun r => r.1 = k) df).*2.

(** [df.groupby(key)[col]] *)
Definition groupby (df : list (string * float)) : list (string * list float) :=
  (fun k => (k, group k df)) <$> group_keys df.

(** [.agg(['count', 'mean', 'std', 'min', 'max'])]; [count] is the
    number of values that are not missing. *)
Definition agg `{Pandas} (g : list float) : stats :=
  Stats (length (filter (fun x => F64.is_nan x = false) g))
        (agg_mean g) (agg_std g) (agg_min g) (agg_max g).

(** [key in summary.index] *)
Definition in_index {A} (key : string) (t : list (string * A)) : bool :=
  bool_decide (key ∈ t.*1).

(** [summary.loc[key, col]]: the row of [key]. *)
Fixpoint loc {A} (t : list (string * A)) (key : string) : Py A :=
  match t with
  | [] => raise (KeyError key)
  | (k, a) :: t' => if String.eqb k key then mret a else loc t' key
  end.

(** [enumerate(l)] *)
Definition enumerate {A} (l : list A) : list (nat * A) := imap (fun i x => (i, x)) l.

(** ** The script *)

Definition load_json_data (filepath : path) : Py (gmap string value) :=
  f ← open filepath;
  match f with
  | Json data => mret data
  | _ => raise JSONDecodeError
  end.

(** The variables of the scan of [find_best_portfolio]; [best_file] is
    assigned only inside the loop. *)
Record scan := Scan {
  best_sharpe : value;
  best_portfolio : option (gmap string value);
  best_file : option path }.

Definition find_best_step (file : path) (st : scan) : Py scan :=
  data ← load_json_data file;
  better ← py_gt (get data "SharpeRatio" (VNum (F64.of_Z 0))) (best_sharpe st);
  if better : bool then
    sharpe ← getitem data "SharpeRatio";
    mret (Scan sharpe (Some data) (Some file))
  else mret st.

Definition find_best_portfolio : Py (option (gmap string value)) :=
  json_files ← glob RESULTS_DIR "optimal_portfolio_" ".json";
  st ← for_each find_best_step json_files (Scan (VNum F64.neg_inf) None None);
  file ← local "best_file" (best_file st);
  print [Txt "Best portfolio found in: "; Txt (basename file)];;
  sharpe ← fmt 4 (best_sharpe st);
  print [Txt "Sharpe Ratio: "; sharpe];;
  mret (best_portfolio st).

(** [not portfolio_data]: [None] and the empty dictionary are falsy. *)
Definition falsy (portfolio_data : option (gmap string value)) : bool :=
  match portfolio_data with
  | None => true
  | Some d => bool_decide (d = ∅)
  end.

(** [pd.DataFrame(stocks)] followed by [df['Weight']]: a frame built from
    an empty list or from [None] has no column to select, and a number or
    a string is no frame. *)
Definition DataFrame (stocks : value) : Py (list stock) :=
  match stocks with
  | VStocks [] | VNull => raise (KeyError "Weight")
  | VStocks l => mret l
  | VNum _ | VStr _ => raise ValueError
  end.

(** [df['Weight'] = df['Weight'] * 100] *)
Definition to_percent (df : list stock) : list stock :=
  (fun s => Stock (Ticker s) (F64.mul (Weight s) (F64.of_Z 100))) <$> df.

(** The label above bar [i] of height [v]. *)
Definition bar_label (iv : nat * float) : Py unit :=
  let '(i, v) := iv in
  if F64.le (F64.of_Z 5) v
  then draw (Text i (F64.add v (F64.dec 5 1)) [Fix 1 v; Txt "%"])
  else mret tt.

Definition plot_best_portfolio (portfolio_data : option (gmap string value)) : Py unit :=
  match portfolio_data with
  | Some d =>
      if falsy portfolio_data then print [Txt "No portfolio data available"] else
      stocks ← getitem d "Stocks";
      df ← DataFrame stocks;
      let df := to_percent df in
      let df := sort_values df in
      draw (Figure 14 8);;
      draw (BarPlot ((fun s => (Ticker s, Weight s)) <$> df));;
      for_ bar_label (enumerate (Weight <$> df));;
      sharpe ← getitem d "SharpeRatio";
      sharpe ← fmt 4 sharpe;
      draw (Title [Txt "Optimal Portfolio Composition - Sharpe Ratio: "; sharpe]);;
      draw (YLabel "Weight (%)");;
      draw (XLabel "Stock Ticker");;
      draw (XTicks 45);;
      draw TightLayout;;
      savefig (os_path_join RESULTS_DIR "best_portfolio_weights.png");;
      show;;
      print [Nl; Txt "Top 5 stocks in optimal portfolio:"];;
      for_ (fun row => print [Txt (Ticker row); Txt ": "; Fix 2 (Weight row); Txt "%"])
           (take 5 df)
  | None => print [Txt "No portfolio data available"]
  end.

(** [pd.read_csv(p)] *)
Definition read_csv (p : path) : Py (list Bench.row) :=
  f ← open p;
  match f with
  | Csv rows => mret rows
  | _ => raise ParserError
  end.

(** A benchmark row with its [TimeSec] column:
    [df['TimeSec'] = df['TimeMs'] / 1000]. *)
Definition with_TimeSec (df : list Bench.row) : list (string * float) :=
  (fun r => (Bench.ExecutionMode r, F64.div (Bench.TimeMs r) (F64.of_Z 1000))) <$> df.

(** [df[df['ExecutionMode'].isin(['parallel', 'sequential'])]] *)
Definition isin_modes (df : list (string * float)) : list (string * float) :=
  filter (fun r => r.1 ∈ ["parallel"; "sequential"]) df.

(** The mean annotation of the box plot for the mode at position [i]. *)
Definition mean_label `{Pandas} (df : list (string * float)) (im : nat * string) : Py unit :=
  let '(i, mode) := im in
  if bool_decide (mode ∈ df.*1) then
    let mean_time := series_mean (group mode df) in
    draw (Text i (F64.add mean_time (F64.of_Z 20)) [Txt "Mean: "; Fix 1 mean_time; Txt "s"])
  else mret tt.

(** The value label on top of bar [i] of height [height]. *)
Definition value_label (ih : nat * float) : Py unit :=
  let '(i, height) := ih in
  draw (Text i (F64.add height (F64.of_Z 5))
             [Fix 1 height; Txt "s"; Nl; Txt "(";
              Fix 1 (F64.div height (F64.of_Z 60)); Txt "min)"]).

Definition analyze_execution_times `{Pandas} : Py unit :=
  let benchmark_file := os_path_join RESULTS_DIR "benchmarks.log" in
  found ← os_path_exists benchmark_file;
  if negb found then
    print [Txt "Benchmark file not found: "; Txt (path_str benchmark_file)]
  else
  df ← read_csv benchmark_file;
  let df := with_TimeSec df in
  let df := isin_modes df in
  if bool_decide (length df < 5)%nat then
    print [Txt "Not enough data points. Found "; Int (length df);
           Txt " benchmarks, need at least 5."];;
    print [Txt "Please run more benchmarks."]
  else
  let summary := prod_map id agg <$> groupby df in
  let mean_min := (fun r => F64.div (st_mean r.2) (F64.of_Z 60)) <$> summary in
  print [Nl; Txt "Execution Time Summary (seconds):"];;
  emit (PrintTable summary);;
  print [Nl; Txt "Execution Time Summary (minutes):"];;
  par ← loc summary "parallel";
  print [Txt "Parallel: "; Fix 2 (F64.div (st_mean par) (F64.of_Z 60)); Txt " minutes"];;
  seq ← loc summary "sequential";
  print [Txt "Sequential: "; Fix 2 (F64.div (st_mean seq) (F64.of_Z 60)); Txt " minutes"];;
  (if in_index "sequential" summary && in_index "parallel" summary then
     seq ← loc summary "sequential";
     par ← loc summary "parallel";
     let speedup := F64.div (st_mean seq) (st_mean par) in
     print [Nl; Txt "Parallel speedup: "; Fix 2 speedup; Txt "x faster"]
   else mret tt);;
  draw (Figure 10 6);;
  draw (BoxPlot df);;
  draw (Title [Txt "Execution Time Comparison: Parallel vs Sequential"]);;
  draw (YLabel "Time (seconds)");;
  draw (XLabel "Execution Mode");;
  for_ (mean_label df) (enumerate ["parallel"; "sequential"]);;
  savefig (os_path_join RESULTS_DIR "execution_time_comparison.png");;
  show;;
  draw (Figure 10 6);;
  let avg_times := prod_map id agg_mean <$> groupby df in
  draw (Bar avg_times);;
  for_ value_label (enumerate avg_times.*2);;
  draw (Title [Txt "Average Execution Time Comparison"]);;
  draw (YLabel "Time (seconds)");;
  draw (XLabel "Execution Mode");;
  draw TightLayout;;
  savefig (os_path_join RESULTS_DIR "avg_execution_time.png");;
  show.

(** A row of the frame of [analyze_portfolio_variations]. *)
Module Variation.
Record row := Row {
  ExecutionMode : value;
  SharpeRatio : value;
  TimeMs : value;
  Timestamp : value }.
End Variation.

Definition variation_row (portfolio : gmap string value) : Variation.row :=
  Variation.Row (get portfolio "ExecutionMode" (VStr "unknown"))
                (get portfolio "SharpeRatio" (VNum (F64.of_Z 0)))
                (get portfolio "TimeElapsedMs" (VNum (F64.of_Z 0)))
                (get portfolio "Timestamp" (VStr "")).

Definition variation_step (file : path) (data : list Variation.row) : Py (list Variation.row) :=
  portfolio ← load_json_data file;
  mret (data ++ [variation_row portfolio]).

(** The columns [ExecutionMode] and [SharpeRatio] of the frame. *)
Definition columns (df : list Variation.row) : list (value * value) :=
  (fun r => (Variation.ExecutionMode r, Variation.SharpeRatio r)) <$> df.

(** The two columns of a row that holds a label and a number, as a result
    file is specified to. *)
Definition mode_and_sharpe (r : Variation.row) : option (string * float) :=
  match Variation.ExecutionMode r, Variation.SharpeRatio r with
  | VStr mode, VNum sharpe => Some (mode, sharpe)
  | _, _ => None
  end.

(** [sns.boxplot(x='ExecutionMode', y='SharpeRatio', data=df)] *)
Definition boxplot `{Pandas} (df : list Variation.row) : Py unit :=
  match mapM mode_and_sharpe df with
  | Some points => draw (BoxPlot points)
  | None =>
      match boxplot_other (columns df) with
      | Some e => raise e
      | None => draw (BoxPlotOf (columns df))
      end
  end.

(** [df.groupby('ExecutionMode')['SharpeRatio'].agg(['count', 'mean',
    'std', 'min', 'max'])] *)
Definition grouped_stats `{Pandas} (df : list Variation.row) : Py (list (string * stats)) :=
  match mapM mode_and_sharpe df with
  | Some points => mret (prod_map id agg <$> groupby points)
  | None =>
      match agg_other (columns df) with
      | inl e => raise e
      | inr t => mret t
      end
  end.

Definition analyze_portfolio_variations `{Pandas} : Py unit :=
  json_files ← glob RESULTS_DIR "optimal_portfolio_" ".json";
  data ← for_each variation_step json_files [];
  if bool_decide (data = []) then print [Txt "No portfolio data found"] else
  let df := data in
  draw (Figure 10 6);;
  boxplot df;;
  draw (Title [Txt "Sharpe Ratio Comparison: Parallel vs Sequential"]);;
  draw (YLabel "Sharpe Ratio");;
  draw (XLabel "Execution Mode");;
  savefig (os_path_join RESULTS_DIR "sharpe_ratio_comparison.png");;
  show;;
  sharpe_stats ← grouped_stats df;
  print [Nl; Txt "Sharpe Ratio Statistics:"];;
  emit (PrintTable sharpe_stats).

Definition main `{Pandas} : Py unit :=
  print [Txt "Portfolio Optimization Analysis"];;
  print [Txt "=============================="];;
  best_portfolio ← find_best_portfolio;
  plot_best_portfolio best_portfolio;;
  print [Nl; Txt "Analyzing execution times..."];;
  analyze_execution_times;;
  print [Nl; Txt "Analyzing portfolio variations..."];;
  analyze_portfolio_variations;;
  print [Nl; Txt "Analysis complete. Plots saved to"; Txt " "; Txt RESULTS_DIR].

(** The names [glob] matches: the result files of the directory, in
    enumeration order. *)
Definition result_files (d : directory) : list string :=
  filter (fun n => fnmatch "optimal_portfolio_" ".json" n = true) d.*1.

(** A result file together with its record and its Sharpe ratio, when the
    file parses and the ratio is a number. *)
Definition scored_file (d : directory) (n : string)
  : option (string * gmap string value * float) :=
  match lookup_file n d with
  | Some (Json data) =>
      match data !! "SharpeRatio" with
      | Some (VNum x) => Some (n, data, x)
      | _ => None
      end
  | _ => None
  end.

Definition scored_results (d : directory)
  : option (list (string * gmap string value * float)) :=
  mapM (scored_file d) (result_files d).

(** The running maximum of the scan, as a fold: [None] before any record
    has exceeded minus infinity. *)
Definition better (cur : option (string * gmap string value * float))
    (r : string * gmap string value * float)
  : option (string * gmap string value * float) :=
  match cur with
  | None => if F64.lt F64.neg_inf r.2 then Some r else None
  | Some c => if F64.lt c.2 r.2 then Some r else cur
  end.

Definition scan_of (cur : option (string * gmap string value * float)) : scan :=
  match cur with
  | None => Scan (VNum F64.neg_inf) None None
  | Some (n, data, x) => Scan (VNum x) (Some data) (Some (os_path_join RESULTS_DIR n))
  end.

(** The events of the loops of the plotter: the label of one bar, and the
    line of one of the top rows. *)
Definition bar_label_events (iv : nat * float) : list event :=
  if F64.le (F64.of_Z 5) iv.2
  then [Draw (Text iv.1 (F64.add iv.2 (F64.dec 5 1)) [Fix 1 iv.2; Txt "%"])]
  else [].

Definition top_row_event (row : stock) : event :=
  Print [Txt (Ticker row); Txt ": "; Fix 2 (Weight row); Txt "%"].

(** What the plotter does for a record with the asset entries [stocks]
    and the Sharpe ratio [sr]. *)
Definition plot_events (stocks : list stock) (sr : float) : list event :=
  let df := sort_values (to_percent stocks) in
  [Draw (Figure 14 8); Draw (BarPlot ((fun s => (Ticker s, Weight s)) <$> df))]
  ++ (enumerate (Weight <$> df) ≫= bar_label_events)
  ++ [Draw (Title [Txt "Optimal Portfolio Composition - Sharpe Ratio: "; Fix 4 sr]);
      Draw (YLabel "Weight (%)");
      Draw (XLabel "Stock Ticker");
      Draw (XTicks 45);
      Draw TightLayout;
      SaveFig (os_path_join RESULTS_DIR "best_portfolio_weights.png");
      Show]
  ++ Print [Nl; Txt "Top 5 stocks in optimal portfolio:"]
     :: (top_row_event <$> take 5 df).

(** Descending order of the rows of the chart. *)
Definition descending (s t : stock) : Prop :=
  comes_first (Weight s) (Weight t) = true.

(** The positions of the labels drawn in a trace, and the first words of
    its printed lines. *)
Definition label_positions (t : list event) : list nat :=
  t ≫= (fun e => match e with Draw (Text i _ _) => [i] | _ => [] end).

Definition printed_heads (t : list event) : list string :=
  t ≫= (fun e => match e with Print (Txt w :: _) => [w] | _ => [] end).

(** The benchmark log of the directory and its qualifying rows: those of
    the two known modes, with their time in seconds. *)
Definition benchmark_log (d : directory) : option file :=
  lookup_file "benchmarks.log" d.

Definition qualifying (rows : list Bench.row) : list (string * float) :=
  isin_modes (with_TimeSec rows).

(** The events of the loops of the benchmark analyzer. *)
Definition mean_label_events `{Pandas} (df : list (string * float)) (im : nat * string)
  : list event :=
  if bool_decide (im.2 ∈ df.*1) then
    [Draw (Text im.1 (F64.add (series_mean (group im.2 df)) (F64.of_Z 20))
                [Txt "Mean: "; Fix 1 (series_mean (group im.2 df)); Txt "s"])]
  else [].

Definition value_label_event (ih : nat * float) : event :=
  Draw (Text ih.1 (F64.add ih.2 (F64.of_Z 5))
             [Fix 1 ih.2; Txt "s"; Nl; Txt "(";
              Fix 1 (F64.div ih.2 (F64.of_Z 60)); Txt "min)"]).

(** The speedup the analyzer reports for the qualifying rows [df]. *)
Definition speedup_of `{Pandas} (df : list (string * float)) : float :=
  F64.div (agg_mean (group "sequential" df)) (agg_mean (group "parallel" df)).

Definition speedup_line `{Pandas} (df : list (string * float)) : event :=
  Print [Nl; Txt "Parallel speedup: "; Fix 2 (speedup_of df); Txt "x faster"].

(** The start of the analysis proper: the summary table. *)
Definition summary_events `{Pandas} (df : list (string * float)) : list event :=
  [Print [Nl; Txt "Execution Time Summary (seconds):"];
   PrintTable (prod_map id agg <$> groupby df);
   Print [Nl; Txt "Execution Time Summary (minutes):"]].

(** What the analyzer does after the summary when both modes are present. *)
Definition comparison_events `{Pandas} (df : list (string * float)) : list event :=
  [Print [Txt "Parallel: ";
          Fix 2 (F64.div (agg_mean (group "parallel" df)) (F64.of_Z 60));
          Txt " minutes"];
   Print [Txt "Sequential: ";
          Fix 2 (F64.div (agg_mean (group "sequential" df)) (F64.of_Z 60));
          Txt " minutes"];
   speedup_line df;
   Draw (Figure 10 6);
   Draw (BoxPlot df);
   Draw (Title [Txt "Execution Time Comparison: Parallel vs Sequential"]);
   Draw (YLabel "Time (seconds)");
   Draw (XLabel "Execution Mode")]
  ++ (enumerate ["parallel"; "sequential"] ≫= mean_label_events df)
  ++ [SaveFig (os_path_join RESULTS_DIR "execution_time_comparison.png");
      Show;
      Draw (Figure 10 6);
      Draw (Bar (prod_map id agg_mean <$> groupby df))]
  ++ (value_label_event <$> enumerate (prod_map id agg_mean <$> groupby df).*2)
  ++ [Draw (Title [Txt "Average Execution Time Comparison"]);
      Draw (YLabel "Time (seconds)");
      Draw (XLabel "Execution Mode");
      Draw TightLayout;
      SaveFig (os_path_join RESULTS_DIR "avg_execution_time.png");
      Show].

(** A diagnostic: a printed line of plain words and counts, with no
    computed statistic in it. *)
Definition is_message (e : event) : bool :=
  match e with
  | Print line =>
      forallb (fun p => match p with Txt _ | Int _ => true | _ => false end) line
  | _ => false
  end.

(** Returning early: the call returns, having printed diagnostics and
    nothing else: no table, no statistic, no chart, no file. *)
Definition returns_early (r : run unit) : Prop :=
  result r = Returns tt
  /\ trace r <> []
  /\ Forall (fun e => is_message e = true) (trace r).

(** The speedups a trace reports. *)
Definition speedup_lines (t : list event) : list float :=
  t ≫= (fun e => match e with
                 | Print [Nl; Txt "Parallel speedup: "; Fix 2 x; Txt "x faster"] => [x]
                 | _ => []
                 end).

(** What the variation analyzer draws and prints for the frame [df] of
    modes and Sharpe ratios. *)
Definition variation_events `{Pandas} (df : list (string * float)) : list event :=
  [Draw (Figure 10 6);
   Draw (BoxPlot df);
   Draw (Title [Txt "Sharpe Ratio Comparison: Parallel vs Sequential"]);
   Draw (YLabel "Sharpe Ratio");
   Draw (XLabel "Execution Mode");
   SaveFig (os_path_join RESULTS_DIR "sharpe_ratio_comparison.png");
   Show;
   Print [Nl; Txt "Sharpe Ratio Statistics:"];
   PrintTable (prod_map id agg <$> groupby df)].

(** The index of a grouped table is in strictly increasing order. *)
Definition key_lt (a b : string) : Prop := String.compare a b = Lt.

(** The inputs of the script in a directory: the result files with their
    contents, in enumeration order, and the benchmark log. *)
Definition inputs (d : directory) : list (string * option file) * option file :=
  ((fun n => (n, lookup_file n d)) <$> result_files d, benchmark_log d).

Definition same_inputs (d d' : directory) : Prop := inputs d = inputs d'.

Definition result_path (d : directory) (p : path) : Prop :=
  dirname p = RESULTS_DIR /\ basename p ∈ result_files d.

(** A computation that depends on the directory through its inputs only,
    and leaves them as they are; [fs] are paths of result files it may
    open. *)
Definition stable_on {A} (fs : list path) (m : Py A) : Prop :=
  forall d d',
    Forall (result_path d) fs ->
    same_inputs d d' ->
    trace (m d) = trace (m d')
    /\ result (m d) = result (m d')
    /\ same_inputs (dir_after (m d)) (dir_after (m d'))
    /\ same_inputs d (dir_after (m d)).

(** ** Invariants of runs *)

(** [keeps I P m]: every run of [m] leaves a directory related by [I] to
    the one it started in, and emits only events that satisfy [P]. *)
Definition keeps {A} (I : relation directory) (P : event -> Prop) (m : Py A) : Prop :=
  forall d, I d (dir_after (m d)) /\ Forall P (trace (m d)).

(** A computation that prints, draws and writes nothing. *)
Definition silent {A} (m : Py A) : Prop :=
  forall d, dir_after (m d) = d /\ trace (m d) = [].

(** What the scan of the finder holds between two files: nothing yet, or
    the record of a result file together with its numeric ratio, which is
    above minus infinity. *)
Definition scan_ok (d : directory) (st : scan) : Prop :=
  st = Scan (VNum F64.neg_inf) None None
  \/ exists n data x,
       st = Scan (VNum x) (Some data) (Some (os_path_join RESULTS_DIR n))
       /\ n ∈ result_files d
       /\ lookup_file n d = Some (Json data)
       /\ data !! "SharpeRatio" = Some (VNum x)
       /\ F64.lt F64.neg_inf x = true.

Definition is_json (f : file) : bool :=
  match f with Json _ => true | _ => false end.

Definition is_draw (e : event) : bool :=
  match e with Draw _ => true | _ => false end.

(** The two lines the finder prints for the file [n] and the ratio [x]. *)
Definition best_lines (n : string) (x : float) : list event :=
  [Print [Txt "Best portfolio found in: "; Txt n];
   Print [Txt "Sharpe Ratio: "; Fix 4 x]].

(** The directory after the file writes recorded in a trace. *)
Definition apply_write (d : directory) (e : event) : directory :=
  match e with
  | SaveFig p =>
      if String.eqb (dirname p) RESULTS_DIR then write_file (basename p) Image d else d
  | _ => d
  end.

Definition apply_writes (t : list event) (d : directory) : directory :=
  foldl apply_write d t.

(** A computation whose every change to the directory is a [savefig]
    recorded in its trace. *)
Definition logged {A} (m : Py A) : Prop :=
  forall d, dir_after (m d) = apply_writes (trace (m d)) d.

(** The charts of the script. *)
Definition chart_names : list string :=
  ["best_portfolio_weights.png"; "execution_time_comparison.png";
   "avg_execution_time.png"; "sharpe_ratio_comparison.png"].

Definition saves_charts_only (e : event) : Prop :=
  forall p, e = SaveFig p -> dirname p = RESULTS_DIR /\ basename p ∈ chart_names.

Definition completion_line : event :=
  Print [Nl; Txt "Analysis complete. Plots saved to"; Txt " "; Txt RESULTS_DIR].

Definition no_data_line : event := Print [Txt "No portfolio data available"].

(** What the plotter has drawn when it reaches the title: the figure, the
    bars and their labels. *)
Definition drawn_events (stocks : list stock) : list event :=
  let df := sort_values (to_percent stocks) in
  [Draw (Figure 14 8); Draw (BarPlot ((fun s => (Ticker s, Weight s)) <$> df))]
  ++ (enumerate (Weight <$> df) ≫= bar_label_events).

(** A directory whose other entries are as before: every entry that is
    not one of the charts has the content it had, and the entries that
    were there are enumerated first, in the same order. *)
Definition untouched (d d' : directory) : Prop :=
  (forall n, n ∉ chart_names -> lookup_file n d' = lookup_file n d)
  /\ d.*1 `prefix_of` d'.*1.

(** No constraint on the directory. *)
Definition anything : relation directory := fun _ _ => True.

(** A computation that prints [line] last when it returns, and not at all
    when it raises. *)
Definition finishes_with {A} (line : event) (m : Py A) : Prop :=
  forall d, match result (m d) with
            | Returns _ => last (trace (m d)) = Some line
            | Raises _ => line ∉ trace (m d)
            end.

(** An event other than [line]. *)
Definition is_not (line e : event) : Prop := e <> line.

(** A result file as the finder reads it: its record, and its Sharpe
    ratio when the record has the field.  A file that does not parse, or
    whose field is not a number, is not read this way. *)
Definition read_file (d : directory) (n : string)
  : option (string * gmap string value * option float) :=
  match lookup_file n d with
  | Some (Json data) =>
      match data !! "SharpeRatio" with
      | Some (VNum x) => Some (n, data, Some x)
      | None => Some (n, data, None)
      | Some _ => None
      end
  | _ => None
  end.

Definition read_results (d : directory)
  : option (list (string * gmap string value * option float)) :=
  mapM (read_file d) (result_files d).

(** The files among them that carry a ratio, in the same order. *)
Definition with_ratio (es : list (string * gmap string value * option float))
  : list (string * gmap string value * float) :=
  omap (fun e => (fun x => (e.1.1, e.1.2, x)) <$> e.2) es.

(** ** Sample data *)

(** Textbook aggregations, used to run the script on sample directories. *)
Module Textbook.

Definition mean (l : list float) : float :=
  F64.div (F64.sum l) (F64.of_Z (Z.of_nat (length l))).

Definition sub (x y : float) : float := SFsub F64.prec F64.emax x y.

Definition std (l : list float) : float :=
  let m := mean l in
  let sq := (fun x => F64.mul (sub x m) (sub x m)) <$> l in
  SFsqrt F64.prec F64.emax
    (F64.div (F64.sum sq) (F64.of_Z (Z.of_nat (length l) - 1))).

Definition least (l : list float) : float :=
  foldr (fun x m => if F64.lt m x then m else x) S754_nan l.

Definition greatest (l : list float) : float :=
  foldr (fun x m => if F64.lt x m then m else x) S754_nan l.

(** This sample library rejects columns that are not labels and numbers. *)
Definition pandas : Pandas :=
  {| agg_mean := mean; agg_std := std; agg_min := least; agg_max := greatest;
     series_mean := mean;
     boxplot_other := fun _ => Some TypeError;
     agg_other := fun _ => inl TypeError |}.

(** A library that plots such columns and rejects them in the
    aggregation. *)
Definition lenient : Pandas :=
  {| agg_mean := mean; agg_std := std; agg_min := least; agg_max := greatest;
     series_mean := mean;
     boxplot_other := fun _ => None;
     agg_other := fun _ => inl TypeError |}.

End Textbook.

Module Sample.

Definition result (sharpe : float) (mode : string) : gmap string value :=
  {[ "SharpeRatio" := VNum sharpe;
     "ExecutionMode" := VStr mode;
     "TimeElapsedMs" := VNum (F64.of_Z 1500);
     "Timestamp" := VStr "2025-04-01 10:00:00";
     "Stocks" := VStocks [Stock "AAPL" (F64.dec 6 1);
                          Stock "MSFT" (F64.dec 15 2);
                          Stock "IBM" (F64.dec 25 2)] ]}.

(** Three results with Sharpe ratios 0.5, 1.2 and 0.9. *)
Definition three_results : directory :=
  [("optimal_portfolio_1.json", Json (result (F64.dec 5 1) "parallel"));
   ("optimal_portfolio_2.json", Json (result (F64.dec 12 1) "sequential"));
   ("optimal_portfolio_3.json", Json (result (F64.dec 9 1) "parallel"))].

Definition bench (ms : Z) (mode : string) : Bench.row :=
  Bench.Row (F64.of_Z ms) mode.

(** Three parallel runs of mean 100 s and two sequential runs of mean
    250 s. *)
Definition five_runs : list Bench.row :=
  [bench 90000 "parallel"; bench 240000 "sequential"; bench 100000 "parallel";
   bench 260000 "sequential"; bench 110000 "parallel"].

Definition full : directory :=
  three_results ++ [("benchmarks.log", Csv five_runs)].

(** One parallel run of 100 s and one sequential run of 250 s. *)
Definition two_runs : list Bench.row :=
  [bench 100000 "parallel"; bench 250000 "sequential"].

(** Three qualifying runs among five lines. *)
Definition three_qualifying : list Bench.row :=
  [bench 90000 "parallel"; bench 5000 "warmup"; bench 240000 "sequential";
   bench 7000 "warmup"; bench 100000 "parallel"].

(** Five runs, all of them parallel. *)
Definition parallel_only : list Bench.row :=
  [bench 90000 "parallel"; bench 95000 "parallel"; bench 100000 "parallel";
   bench 105000 "parallel"; bench 110000 "parallel"].

End Sample.

Module Sample2.

(** The three sample results, enumerated in another order. *)
Definition reordered : directory :=
  [("optimal_portfolio_3.json", Json (Sample.result (F64.dec 9 1) "parallel"));
   ("optimal_portfolio_1.json", Json (Sample.result (F64.dec 5 1) "parallel"));
   ("optimal_portfolio_2.json", Json (Sample.result (F64.dec 12 1) "sequential"))].

(** A result file that does not parse, after one that does. *)
Definition with_broken_file : directory :=
  [("optimal_portfolio_1.json", Json (Sample.result (F64.dec 5 1) "parallel"));
   ("optimal_portfolio_2.json", Other)].

(** A result without the Sharpe ratio, between two that have one. *)
Definition with_unscored_file : directory :=
  [("optimal_portfolio_1.json", Json (Sample.result (F64.dec 5 1) "parallel"));
   ("optimal_portfolio_2.json", Json {[ "ExecutionMode" := VStr "sequential" ]});
   ("optimal_portfolio_3.json", Json (Sample.result (F64.dec 9 1) "parallel"))].

(** The five sample runs with two lines of another label among them. *)
Definition with_warmup : list Bench.row :=
  [Sample.bench 5000 "warmup"; Sample.bench 90000 "parallel";
   Sample.bench 240000 "sequential"; Sample.bench 100000 "parallel";
   Sample.bench 7000 "warmup"; Sample.bench 260000 "sequential";
   Sample.bench 110000 "parallel"].

(** Five runs, the sequential ones first in the log. *)
Definition sequential_first : list Bench.row :=
  [Sample.bench 240000 "sequential"; Sample.bench 260000 "sequential";
   Sample.bench 90000 "parallel"; Sample.bench 100000 "parallel";
   Sample.bench 110000 "parallel"].

End Sample2.

(** * Properties *)

(** ** The interpreter monad *)

Lemma bind_run {A B} (m : Py A) (k : A -> Py B) (d : directory) :
  (m ≫= k) d =
  match m d with
  | Run d1 t1 (Returns a) =>
      match k a d1 with Run d2 t2 r => Run d2 (t1 ++ t2) r end
  | Run d1 t1 (Raises e) => Run d1 t1 (Raises e)
  end.
Proof. reflexivity. Qed.

Lemma bind_returns {A B} (m : Py A) (k : A -> Py B) d d1 t1 a :
  m d = Run d1 t1 (Returns a) ->
  (m ≫= k) d = Run (dir_after (k a d1)) (t1 ++ trace (k a d1)) (result (k a d1)).
Proof. intros E. rewrite bind_run, E. by destruct (k a d1). Qed.

Lemma bind_raises {A B} (m : Py A) (k : A -> Py B) d d1 t1 e :
  m d = Run d1 t1 (Raises e) -> (m ≫= k) d = Run d1 t1 (Raises e).
Proof. intros E. by rewrite bind_run, E. Qed.

(** Running a sequence: the first statement, then the rest from where it
    stopped. *)
Lemma run_bind {A B} (m : Py A) (k : A -> Py B) d d1 t1 a d2 t2 r :
  m d = Run d1 t1 (Returns a) ->
  k a d1 = Run d2 t2 r ->
  (m ≫= k) d = Run d2 (t1 ++ t2) r.
Proof. intros E1 E2. by rewrite bind_run, E1, E2. Qed.

(** A statement that prints nothing leaves only its value. *)
Lemma bind_pure {A B} (m : Py A) (k : A -> Py B) d d1 a :
  m d = Run d1 [] (Returns a) -> (m ≫= k) d = k a d1.
Proof. intros E. rewrite bind_run, E. by destruct (k a d1). Qed.

Ltac run_with tac :=
  lazymatch goal with
  | |- (_ ≫= _) _ = _ => eapply run_bind; [tac|cbv beta]
  end.

Ltac run := run_with ltac:(reflexivity).

Lemma glob_results d :
  glob RESULTS_DIR "optimal_portfolio_" ".json" d =
  Run d [] (Returns (os_path_join RESULTS_DIR <$> result_files d)).
Proof. reflexivity. Qed.


(** ** Order of binary64 numbers *)

Module F64Facts.

Ltac compare_cases :=
  simpl; try discriminate; try reflexivity;
  change (PosDef.Pos.compare_cont Eq) with Pos.compare;
  repeat match goal with
         | |- context [(?a ?= ?b)%Z] => destruct (Z.compare_spec a b)
         | |- context [(?a ?= ?b)%positive] => destruct (Pos.compare_spec a b)
         end;
  simpl; try discriminate; try reflexivity; try lia.

Ltac cases2 x y :=
  destruct x as [[]|[]| |[] ? ?], y as [[]|[]| |[] ? ?]; compare_cases.

Ltac cases3 x y z :=
  destruct x as [[]|[]| |[] ? ?], y as [[]|[]| |[] ? ?], z as [[]|[]| |[] ? ?];
  compare_cases.

Lemma lt_trans x y z :
  F64.lt x y = true -> F64.lt y z = true -> F64.lt x z = true.
Proof. unfold F64.lt, SFltb. cases3 x y z. Qed.

Lemma le_lt_trans x y z :
  F64.le x y = true -> F64.lt y z = true -> F64.lt x z = true.
Proof. unfold F64.le, F64.lt, SFleb, SFltb. cases3 x y z. Qed.

Lemma lt_le x y : F64.lt x y = true -> F64.le x y = true.
Proof. unfold F64.le, F64.lt, SFleb, SFltb. cases2 x y. Qed.

Lemma not_lt_le x y :
  F64.is_nan x = false -> F64.is_nan y = false ->
  F64.lt x y = false -> F64.le y x = true.
Proof. unfold F64.le, F64.lt, SFleb, SFltb. cases2 x y. Qed.

Lemma le_refl x : F64.is_nan x = false -> F64.le x x = true.
Proof.
  unfold F64.le, SFleb.
  destruct x as [[]|[]| |[] m e]; simpl; try discriminate; try reflexivity;
    intros _; rewrite Z.compare_refl;
    change (PosDef.Pos.compare_cont Eq) with Pos.compare;
    rewrite Pos.compare_refl; reflexivity.
Qed.

Lemma lt_irrefl x : F64.lt x x = false.
Proof.
  unfold F64.lt, SFltb.
  destruct x as [[]|[]| |[] m e]; simpl; try reflexivity;
    rewrite Z.compare_refl;
    change (PosDef.Pos.compare_cont Eq) with Pos.compare;
    rewrite Pos.compare_refl; reflexivity.
Qed.

Lemma lt_asym x y : F64.lt x y = true -> F64.lt y x = false.
Proof. unfold F64.lt, SFltb. cases2 x y. Qed.

(** Below no number: [not (x < y)] and [not (y < z)] give [not (x < z)]
    when [y] is a number. *)
Lemma not_lt_trans x y z :
  F64.is_nan y = false ->
  F64.lt x y = false -> F64.lt y z = false -> F64.lt x z = false.
Proof. unfold F64.lt, SFltb. cases3 x y z. Qed.

Lemma finite_not_nan x : F64.finite x = true -> F64.is_nan x = false.
Proof. by destruct x. Qed.

Lemma neg_inf_lt_finite x : F64.finite x = true -> F64.lt F64.neg_inf x = true.
Proof. by destruct x as [[]|[]| |[] ? ?]. Qed.

End F64Facts.

(** ** The best-portfolio finder *)

Import F64Facts.

Lemma open_resolved n f d :
  lookup_file n d = Some f ->
  open (os_path_join RESULTS_DIR n) d = Run d [] (Returns f).
Proof. intros H. unfold open, resolve. simpl. by rewrite H. Qed.

Lemma find_best_step_scored d n r cur :
  scored_file d n = Some r ->
  find_best_step (os_path_join RESULTS_DIR n) (scan_of cur) d
  = Run d [] (Returns (scan_of (better cur r))).
Proof.
  unfold scored_file. intros H.
  destruct (lookup_file n d) as [[data| | |]|] eqn:Hfile; try discriminate.
  destruct (data !! "SharpeRatio") as [[|x| |]|] eqn:Hscore; try discriminate.
  injection H as <-.
  unfold find_best_step, load_json_data.
  rewrite bind_run, bind_run, (open_resolved _ _ _ Hfile). simpl.
  unfold get. rewrite Hscore.
  destruct cur as [[[n' data'] b]|]; simpl.
  - destruct (F64.lt b x) eqn:Hlt; simpl; [|reflexivity].
    unfold getitem. rewrite Hscore. reflexivity.
  - destruct (F64.lt F64.neg_inf x) eqn:Hlt; simpl; [|reflexivity].
    unfold getitem. rewrite Hscore. reflexivity.
Qed.

(** The scan over files that all parse and carry a number is the fold of
    [better]. *)
Lemma find_best_loop d ns recs cur :
  Forall2 (fun n r => scored_file d n = Some r) ns recs ->
  for_each find_best_step (os_path_join RESULTS_DIR <$> ns) (scan_of cur) d
  = Run d [] (Returns (scan_of (foldl better cur recs))).
Proof.
  intros H. revert cur. induction H as [|n r ns recs Hn _ IH]; intros cur.
  - reflexivity.
  - simpl. rewrite (bind_returns _ _ _ _ _ _ (find_best_step_scored _ _ _ cur Hn)).
    rewrite IH. reflexivity.
Qed.

(** The fold of [better] over finite scores ends on the first maximum. *)
Lemma better_first_max (recs : list (string * gmap string value * float)) :
  Forall (fun r => F64.finite r.2 = true) recs ->
  recs <> [] ->
  exists i r,
    foldl better None recs = Some r
    /\ recs !! i = Some r
    /\ (forall j s, recs !! j = Some s -> F64.le s.2 r.2 = true)
    /\ (forall j s, recs !! j = Some s -> (j < i)%nat -> F64.lt s.2 r.2 = true).
Proof.
  induction recs as [|s recs IH] using rev_ind; [done|].
  intros Hfin _. apply Forall_app in Hfin as [Hfin Hs].
  rewrite Forall_singleton in Hs. rewrite foldl_app. simpl.
  destruct (decide (recs = [])) as [->|Hne].
  { simpl. rewrite (neg_inf_lt_finite _ Hs). exists 0%nat, s.
    repeat split; [|intros j t Hj ?; lia].
    intros [|j] t Hj; simplify_eq/=. by apply le_refl, finite_not_nan. }
  destruct (IH Hfin) as (i & r & Hfold & Hi & Hle & Hlt); [done|].
  rewrite Hfold. simpl.
  assert (Hr : F64.finite r.2 = true).
  { eapply (proj1 (Forall_lookup _ _) Hfin); eauto. }
  destruct (F64.lt r.2 s.2) eqn:Hrs.
  - exists (length recs), s. split; [done|].
    split; [by rewrite lookup_app_r, Nat.sub_diag|].
    split.
    + intros j t Hj. apply lookup_app_Some in Hj as [Hj|[Hlen Hj]].
      * apply lt_le. eapply le_lt_trans; eauto.
      * apply list_lookup_singleton_Some in Hj as [_ <-].
        by apply le_refl, finite_not_nan.
    + intros j t Hj Hlen. rewrite lookup_app_l in Hj by done.
      eapply le_lt_trans; eauto.
  - exists i, r. split; [done|].
    split; [by apply lookup_app_l_Some|].
    split.
    + intros j t Hj. apply lookup_app_Some in Hj as [Hj|[Hlen Hj]]; [eauto|].
      apply list_lookup_singleton_Some in Hj as [_ <-].
      by apply not_lt_le; [apply finite_not_nan..|].
    + intros j t Hj Hlen. apply Hlt with j; [|done].
      apply lookup_lt_Some in Hi. by rewrite lookup_app_l in Hj by lia.
Qed.

(** C1: with no result file in the directory the finder does not return
    an empty result: the loop never assigns [best_file], the first print
    reads it and raises [UnboundLocalError], and [main] stops there, after
    its two heading lines, before the plotter and the later stages. *)
Theorem find_best_portfolio_no_files (d : directory) :
  result_files d = [] ->
  find_best_portfolio d = Run d [] (Raises (UnboundLocalError "best_file"))
  /\ forall P : Pandas,
       @main P d =
       Run d [Print [Txt "Portfolio Optimization Analysis"];
              Print [Txt "=============================="]]
           (Raises (UnboundLocalError "best_file")).
Proof.
  intros Hnone.
  assert (Hfind : find_best_portfolio d
                  = Run d [] (Raises (UnboundLocalError "best_file"))).
  { unfold find_best_portfolio.
    rewrite (bind_returns _ _ _ _ _ _ (glob_results d)), Hnone. reflexivity. }
  split; [exact Hfind|]. intros P. unfold main.
  do 2 (erewrite bind_returns by reflexivity).
  erewrite (bind_raises find_best_portfolio) by exact Hfind. reflexivity.
Qed.

Lemma find_best_portfolio_no_files_witness :
  result_files [("benchmarks.log", Csv Sample.five_runs)] = []
  /\ find_best_portfolio [("benchmarks.log", Csv Sample.five_runs)]
     = Run [("benchmarks.log", Csv Sample.five_runs)] []
           (Raises (UnboundLocalError "best_file")).
Proof.
  split; [reflexivity|].
  apply (find_best_portfolio_no_files [("benchmarks.log", Csv Sample.five_runs)]).
  reflexivity.
Defined.

(** A record without a Sharpe ratio, met while the running maximum is
    [b]: the comparison reads the default 0, and when it succeeds the
    assignment indexes the missing key. *)
Lemma find_best_step_missing_score d n data st b :
  lookup_file n d = Some (Json data) ->
  data !! "SharpeRatio" = None ->
  best_sharpe st = VNum b ->
  find_best_step (os_path_join RESULTS_DIR n) st d
  = Run d [] (if F64.lt b (F64.of_Z 0)
              then Raises (KeyError "SharpeRatio")
              else Returns st).
Proof.
  intros Hfile Hscore Hbest. unfold find_best_step, load_json_data.
  generalize (F64.of_Z 0). intros zero.
  rewrite bind_run, bind_run, (open_resolved _ _ _ Hfile). simpl.
  unfold get. rewrite Hscore, Hbest. simpl.
  rewrite bind_run. simpl.
  destruct (F64.lt b zero); simpl; [|reflexivity].
  unfold getitem. rewrite Hscore. reflexivity.
Qed.

(** C2: a result file without the scoring field is not scanned as a score
    of 0.  The comparison uses the default, but the assignment that
    follows reads [data['SharpeRatio']]: when such a file comes first (the
    running maximum is still minus infinity) the finder raises [KeyError]
    and prints nothing. *)
Theorem find_best_portfolio_missing_score (d : directory) n rest data :
  result_files d = n :: rest ->
  lookup_file n d = Some (Json data) ->
  data !! "SharpeRatio" = None ->
  find_best_portfolio d = Run d [] (Raises (KeyError "SharpeRatio")).
Proof.
  intros Hfiles Hfile Hscore. unfold find_best_portfolio.
  rewrite (bind_returns _ _ _ _ _ _ (glob_results d)), Hfiles. simpl.
  erewrite bind_raises; [reflexivity|].
  erewrite bind_raises; [reflexivity|].
  by rewrite (find_best_step_missing_score d n data _ F64.neg_inf Hfile Hscore).
Qed.

Lemma find_best_portfolio_missing_score_witness :
  find_best_portfolio [("optimal_portfolio_1.json", Json {[ "ExecutionMode" := VStr "parallel" ]})]
  = Run [("optimal_portfolio_1.json", Json {[ "ExecutionMode" := VStr "parallel" ]})] []
        (Raises (KeyError "SharpeRatio")).
Proof.
  apply (find_best_portfolio_missing_score _ "optimal_portfolio_1.json" []
           {[ "ExecutionMode" := VStr "parallel" ]}); reflexivity.
Defined.

(** A later file without the field raises as well when every score seen
    before it is negative; after a score of 0 or more it is skipped. *)
Example find_best_portfolio_missing_score_after_negative :
  result (find_best_portfolio
            [("optimal_portfolio_1.json", Json {[ "SharpeRatio" := VNum (F64.dec (-3) 1) ]});
             ("optimal_portfolio_2.json", Json ∅)])
  = Raises (KeyError "SharpeRatio").
Proof. reflexivity. Qed.

Example find_best_portfolio_missing_score_after_positive :
  find_best_portfolio
    [("optimal_portfolio_1.json", Json {[ "SharpeRatio" := VNum (F64.dec 3 1) ]});
     ("optimal_portfolio_2.json", Json ∅)]
  = Run [("optimal_portfolio_1.json", Json {[ "SharpeRatio" := VNum (F64.dec 3 1) ]});
         ("optimal_portfolio_2.json", Json ∅)]
        [Print [Txt "Best portfolio found in: "; Txt "optimal_portfolio_1.json"];
         Print [Txt "Sharpe Ratio: "; Fix 4 (F64.dec 3 1)]]
        (Returns (Some {[ "SharpeRatio" := VNum (F64.dec 3 1) ]})).
Proof. reflexivity. Qed.



(** Among the Sharpe ratios 0.5, 1.2 and 0.9 the finder selects 1.2. *)
Example find_best_portfolio_three_results :
  find_best_portfolio Sample.three_results
  = Run Sample.three_results
        [Print [Txt "Best portfolio found in: "; Txt "optimal_portfolio_2.json"];
         Print [Txt "Sharpe Ratio: "; Fix 4 (F64.dec 12 1)]]
        (Returns (Some (Sample.result (F64.dec 12 1) "sequential"))).
Proof. reflexivity. Qed.

(** Equal maxima: the file enumerated first wins. *)
Example find_best_portfolio_tie :
  trace (find_best_portfolio
           [("optimal_portfolio_b.json", Json (Sample.result (F64.dec 12 1) "parallel"));
            ("optimal_portfolio_a.json", Json (Sample.result (F64.dec 12 1) "sequential"))])
  = [Print [Txt "Best portfolio found in: "; Txt "optimal_portfolio_b.json"];
     Print [Txt "Sharpe Ratio: "; Fix 4 (F64.dec 12 1)]].
Proof. reflexivity. Qed.

(** ** Loops *)

Lemma for_events {A} (body : A -> Py unit) (ev : A -> list event) :
  (forall x d, body x d = Run d (ev x) (Returns tt)) ->
  forall l d, for_ body l d = Run d (l ≫= ev) (Returns tt).
Proof.
  intros Hbody l. unfold for_. generalize tt at 1.
  induction l as [|x l IH]; intros u d.
  - by destruct u.
  - simpl. rewrite (bind_returns _ _ _ _ _ _ (Hbody x d)), IH. reflexivity.
Qed.

Lemma bar_label_run iv d : bar_label iv d = Run d (bar_label_events iv) (Returns tt).
Proof.
  destruct iv as [i v]. unfold bar_label, bar_label_events. simpl.
  by destruct (F64.le _ v).
Qed.

(** ** Sorting the rows *)

Lemma lt_nan_r x y : F64.is_nan y = true -> F64.lt x y = false.
Proof. by destruct x as [[]|[]| |[] ? ?], y. Qed.

Lemma comes_first_total x y : comes_first x y = false -> comes_first y x = true.
Proof.
  unfold comes_first. destruct (F64.is_nan y) eqn:Hy, (F64.is_nan x) eqn:Hx; simpl; try done.
  destruct (F64.lt x y) eqn:Hlt; [|done]. intros _. by rewrite (lt_asym _ _ Hlt).
Qed.

Lemma comes_first_trans x y z :
  comes_first x y = true -> comes_first y z = true -> comes_first x z = true.
Proof.
  unfold comes_first.
  destruct (F64.is_nan z) eqn:Hz; [done|].
  destruct (F64.is_nan y) eqn:Hy; simpl; [done|].
  destruct (F64.is_nan x) eqn:Hx; simpl; [done|].
  destruct (F64.lt x y) eqn:Hxy; [done|].
  destruct (F64.lt y z) eqn:Hyz; [done|].
  by rewrite (not_lt_trans x y z Hy Hxy Hyz).
Qed.

Lemma comes_first_not_lt x y : comes_first x y = true -> F64.lt x y = false.
Proof.
  unfold comes_first. destruct (F64.is_nan y) eqn:Hy; simpl.
  - intros _. by apply lt_nan_r.
  - destruct (F64.is_nan x); simpl; [done|]. by destruct (F64.lt x y).
Qed.

Lemma insert_row_perm s l : insert_row s l ≡ₚ s :: l.
Proof.
  induction l as [|t l IH]; simpl; [done|].
  destruct (comes_first _ _); [done|]. by rewrite IH, Permutation_swap.
Qed.

Lemma insert_row_sorted s l :
  StronglySorted descending l -> StronglySorted descending (insert_row s l).
Proof.
  induction 1 as [|t l Hl IH Ht]; simpl.
  - repeat constructor.
  - destruct (comes_first (Weight s) (Weight t)) eqn:Hst.
    + constructor; [by constructor|]. constructor; [done|].
      eapply Forall_impl; [exact Ht|]. intros u Hu. unfold descending in *.
      by eapply comes_first_trans.
    + constructor; [done|]. rewrite insert_row_perm.
      constructor; [|done]. by apply comes_first_total.
Qed.

Lemma sort_values_perm df : sort_values df ≡ₚ df.
Proof.
  induction df as [|s df IH]; simpl; [done|].
  by rewrite insert_row_perm, IH.
Qed.

Lemma sort_values_sorted df : StronglySorted descending (sort_values df).
Proof.
  induction df as [|s df IH]; simpl; [constructor|]. by apply insert_row_sorted.
Qed.

Lemma sorted_lookup (df : list stock) i j s t :
  StronglySorted descending df ->
  df !! i = Some s -> df !! j = Some t -> (i < j)%nat -> descending s t.
Proof.
  intros Hsorted. revert i j. induction Hsorted as [|u df _ IH Hu]; intros i j Hi Hj Hlt.
  - by rewrite lookup_nil in Hi.
  - destruct j as [|j]; [lia|]. destruct i as [|i]; simpl in *.
    + simplify_eq. eapply (proj1 (Forall_lookup _ _) Hu); eauto.
    + apply (IH i j); [done..|lia].
Qed.

(** A row that may precede another has a weight at least as great, unless
    the other's weight is a NaN. *)
Lemma comes_first_le_or_nan x y :
  comes_first x y = true -> F64.le y x = true \/ F64.is_nan y = true.
Proof.
  unfold comes_first. destruct (F64.is_nan y) eqn:Hy; simpl; [by right|].
  destruct (F64.is_nan x) eqn:Hx; simpl; [done|].
  destruct (F64.lt x y) eqn:Hlt; simpl; [done|]. intros _. left.
  by apply not_lt_le.
Qed.

Lemma sort_values_descending df i j s t :
  sort_values df !! i = Some s -> sort_values df !! j = Some t -> (i < j)%nat ->
  F64.le (Weight t) (Weight s) = true \/ F64.is_nan (Weight t) = true.
Proof.
  intros Hi Hj Hlt. apply comes_first_le_or_nan.
  exact (sorted_lookup _ i j s t (sort_values_sorted _) Hi Hj Hlt).
Qed.

(** ** The composition plotter *)

Lemma bind_singleton {A B} (f : A -> B) (l : list A) :
  l ≫= (fun x => [f x]) = f <$> l.
Proof. induction l as [|x l IH]; [done|]. csimpl. by rewrite IH. Qed.

Lemma plot_best_portfolio_run data stocks sr d :
  data !! "Stocks" = Some (VStocks stocks) ->
  stocks <> [] ->
  data !! "SharpeRatio" = Some (VNum sr) ->
  plot_best_portfolio (Some data) d
  = Run (write_file "best_portfolio_weights.png" Image d)
        (plot_events stocks sr) (Returns tt).
Proof.
  intros Hstocks Hne Hsr. unfold plot_best_portfolio, falsy.
  rewrite bool_decide_eq_false_2 by (intros ->; by rewrite lookup_empty in Hstocks).
  unfold getitem. rewrite Hstocks, Hsr.
  assert (HDF : forall d', DataFrame (VStocks stocks) d' = Run d' [] (Returns stocks))
    by (by destruct stocks).
  etrans.
  { run. run_with ltac:(apply HDF). do 2 run.
    run_with ltac:(apply (for_events _ _ bar_label_run)).
    repeat run.
    apply (for_events _ (fun row => [top_row_event row])). done. }
  rewrite bind_singleton. reflexivity.
Qed.

Lemma label_in_plot_events stocks sr i y label :
  Draw (Text i y label) ∈ plot_events stocks sr <->
  exists v, (Weight <$> sort_values (to_percent stocks)) !! i = Some v
            /\ F64.le (F64.of_Z 5) v = true
            /\ y = F64.add v (F64.dec 5 1)
            /\ label = [Fix 1 v; Txt "%"].
Proof.
  unfold plot_events. cbv zeta.
  rewrite !elem_of_app, !elem_of_cons, elem_of_nil, list_elem_of_bind, list_elem_of_fmap.
  split.
  - intros [H|[H|[H|H]]].
    + destruct H as [?|[?|[]]]; discriminate.
    + destruct H as ([i' v] & Hev & Hin). unfold bar_label_events in Hev. simpl in Hev.
      destruct (F64.le (F64.of_Z 5) v) eqn:Hle; [|by apply elem_of_nil in Hev].
      apply list_elem_of_singleton in Hev. injection Hev as -> -> ->.
      unfold enumerate in Hin. apply elem_of_lookup_imap in Hin as (j & w & Hjw & Hj).
      injection Hjw as -> ->. by exists w.
    + repeat (destruct H as [H|H]; [discriminate|]). done.
    + destruct H as [H|(row & H & _)]; discriminate.
  - intros (v & Hv & Hle & -> & ->). right. left. exists (i, v). split.
    + unfold bar_label_events. simpl. rewrite Hle. by apply list_elem_of_singleton.
    + unfold enumerate. apply elem_of_lookup_imap. by exists i, v.
Qed.



(** C7: in the chart of a record with asset entries and a Sharpe ratio, a
    label is drawn above bar [i] exactly when its percentage is at least 5
    (and then it reads that percentage, half a point above the bar), and
    the printed lines are the heading followed by the top five entries by
    weight in descending order, all of them when there are fewer than
    five.  The bars are the entries of the record with their weights
    scaled, in an order where every later bar has a weight at most that
    of an earlier one (or a weight that is not a number); the printed
    rows are the first five bars, so that no entry left out outweighs a
    printed one. *)
Theorem plot_best_portfolio_labels_and_top5 data stocks sr d :
  data !! "Stocks" = Some (VStocks stocks) ->
  stocks <> [] ->
  data !! "SharpeRatio" = Some (VNum sr) ->
  let df := sort_values (to_percent stocks) in
  let t := trace (plot_best_portfolio (Some data) d) in
  ((forall i row, df !! i = Some row ->
      ((exists y label, Draw (Text i y label) ∈ t)
       <-> F64.le (F64.of_Z 5) (Weight row) = true)
      /\ (F64.le (F64.of_Z 5) (Weight row) = true ->
          Draw (Text i (F64.add (Weight row) (F64.dec 5 1))
                     [Fix 1 (Weight row); Txt "%"]) ∈ t))
   /\ exists before,
        t = before ++ Print [Nl; Txt "Top 5 stocks in optimal portfolio:"]
                      :: (top_row_event <$> take 5 df)
        /\ forall line, Print line ∉ before)
  /\ df ≡ₚ (fun s => Stock (Ticker s) (F64.mul (Weight s) (F64.of_Z 100))) <$> stocks
  /\ (forall i j row row',
        df !! i = Some row -> df !! j = Some row' -> (i < j)%nat ->
        F64.le (Weight row') (Weight row) = true \/ F64.is_nan (Weight row') = true)
  /\ length (take 5 df) = min 5 (length stocks)
  /\ (forall row row',
        row ∈ take 5 df -> row' ∈ drop 5 df ->
        F64.le (Weight row') (Weight row) = true \/ F64.is_nan (Weight row') = true).
Proof.
  intros Hstocks Hne Hsr. cbv zeta.
  split; [|split; [apply sort_values_perm|split; [apply sort_values_descending|split]]].
  3:{ intros row row' [i Hi]%list_elem_of_lookup [k Hk]%list_elem_of_lookup.
      apply lookup_take_Some in Hi as [Hi Hlt]. rewrite lookup_drop in Hk.
      apply (sort_values_descending _ i (5 + k) row row' Hi Hk). lia. }
  2:{ rewrite length_take, (Permutation_length (sort_values_perm _)).
      unfold to_percent. by rewrite length_fmap. }
  rewrite (plot_best_portfolio_run data stocks sr d Hstocks Hne Hsr). simpl.
  split.
  - intros i row Hi.
    assert (Hw : (Weight <$> sort_values (to_percent stocks)) !! i = Some (Weight row))
      by (by rewrite list_lookup_fmap, Hi).
    split; [split|].
    + intros (y & label & Hin). apply label_in_plot_events in Hin as (v & Hv & Hle & _).
      by simplify_eq.
    + intros Hle. eexists _, _. apply label_in_plot_events. eauto.
    + intros Hle. apply label_in_plot_events. eauto.
  - unfold plot_events. cbv zeta. rewrite !app_assoc. eexists. split; [reflexivity|].
    intros line. rewrite !elem_of_app, !elem_of_cons, elem_of_nil, list_elem_of_bind.
    intros [[H|H]|H].
    + destruct H as [?|[?|[]]]; discriminate.
    + destruct H as ([i v] & Hev & _). unfold bar_label_events in Hev.
      destruct (F64.le _ _); [|by apply elem_of_nil in Hev].
      apply list_elem_of_singleton in Hev. discriminate.
    + repeat (destruct H as [H|H]; [discriminate|]). done.
Qed.

Lemma plot_best_portfolio_labels_and_top5_witness :
  ((forall i row, (sort_values (to_percent [Stock "AAPL" (F64.dec 6 1); Stock "MSFT" (F64.dec 15 2);
            Stock "IBM" (F64.dec 25 2)])) !! i = Some row ->
      ((exists y label, Draw (Text i y label) ∈ (trace (plot_best_portfolio (Some (Sample.result (F64.dec 12 1) "sequential")) [])))
       <-> F64.le (F64.of_Z 5) (Weight row) = true)
      /\ (F64.le (F64.of_Z 5) (Weight row) = true ->
          Draw (Text i (F64.add (Weight row) (F64.dec 5 1))
                     [Fix 1 (Weight row); Txt "%"]) ∈ (trace (plot_best_portfolio (Some (Sample.result (F64.dec 12 1) "sequential")) []))))
   /\ exists before,
        (trace (plot_best_portfolio (Some (Sample.result (F64.dec 12 1) "sequential")) [])) = before ++ Print [Nl; Txt "Top 5 stocks in optimal portfolio:"]
                      :: (top_row_event <$> take 5 (sort_values (to_percent [Stock "AAPL" (F64.dec 6 1); Stock "MSFT" (F64.dec 15 2);
            Stock "IBM" (F64.dec 25 2)])))
        /\ forall line, Print line ∉ before)
  /\ (sort_values (to_percent [Stock "AAPL" (F64.dec 6 1); Stock "MSFT" (F64.dec 15 2);
            Stock "IBM" (F64.dec 25 2)])) ≡ₚ (fun s => Stock (Ticker s) (F64.mul (Weight s) (F64.of_Z 100))) <$> [Stock "AAPL" (F64.dec 6 1); Stock "MSFT" (F64.dec 15 2);
            Stock "IBM" (F64.dec 25 2)]
  /\ (forall i j row row',
        (sort_values (to_percent [Stock "AAPL" (F64.dec 6 1); Stock "MSFT" (F64.dec 15 2);
            Stock "IBM" (F64.dec 25 2)])) !! i = Some row -> (sort_values (to_percent [Stock "AAPL" (F64.dec 6 1); Stock "MSFT" (F64.dec 15 2);
            Stock "IBM" (F64.dec 25 2)])) !! j = Some row' -> (i < j)%nat ->
        F64.le (Weight row') (Weight row) = true \/ F64.is_nan (Weight row') = true)
  /\ length (take 5 (sort_values (to_percent [Stock "AAPL" (F64.dec 6 1); Stock "MSFT" (F64.dec 15 2);
            Stock "IBM" (F64.dec 25 2)]))) = min 5 (length [Stock "AAPL" (F64.dec 6 1); Stock "MSFT" (F64.dec 15 2);
            Stock "IBM" (F64.dec 25 2)])
  /\ (forall row row',
        row ∈ take 5 (sort_values (to_percent [Stock "AAPL" (F64.dec 6 1); Stock "MSFT" (F64.dec 15 2);
            Stock "IBM" (F64.dec 25 2)])) -> row' ∈ drop 5 (sort_values (to_percent [Stock "AAPL" (F64.dec 6 1); Stock "MSFT" (F64.dec 15 2);
            Stock "IBM" (F64.dec 25 2)])) ->
        F64.le (Weight row') (Weight row) = true \/ F64.is_nan (Weight row') = true).
Proof.
  apply (plot_best_portfolio_labels_and_top5
           (Sample.result (F64.dec 12 1) "sequential")
           [Stock "AAPL" (F64.dec 6 1); Stock "MSFT" (F64.dec 15 2);
            Stock "IBM" (F64.dec 25 2)]
           (F64.dec 12 1) []).
  - reflexivity.
  - discriminate.
  - reflexivity.
Defined.

(** A portfolio of seven assets: the two bars below 5% get no label and
    only the five largest rows are printed. *)
Example plot_best_portfolio_seven_assets :
  let stocks := [Stock "A" (F64.dec 4 2); Stock "B" (F64.dec 30 2);
                 Stock "C" (F64.dec 5 2); Stock "D" (F64.dec 20 2);
                 Stock "E" (F64.dec 3 2); Stock "F" (F64.dec 28 2);
                 Stock "G" (F64.dec 10 2)] in
  let t := trace (plot_best_portfolio
                    (Some {[ "Stocks" := VStocks stocks;
                             "SharpeRatio" := VNum (F64.dec 12 1) ]}) []) in
  label_positions t = [0; 1; 2; 3; 4]%nat
  /\ printed_heads t = ["B"; "F"; "D"; "G"; "C"].
Proof. cbv zeta. split; reflexivity. Qed.

(** ** Grouping *)

Lemma elem_of_insert_key k k' ks : k ∈ insert_key k' ks <-> k = k' \/ k ∈ ks.
Proof.
  induction ks as [|k0 ks IH]; simpl.
  - rewrite list_elem_of_singleton, elem_of_nil. tauto.
  - destruct (String.compare k' k0) eqn:Hc.
    + apply String.compare_eq_iff in Hc as ->. rewrite elem_of_cons. tauto.
    + rewrite !elem_of_cons. tauto.
    + rewrite !elem_of_cons, IH. tauto.
Qed.

Lemma elem_of_group_keys k (df : list (string * float)) :
  k ∈ group_keys df <-> k ∈ df.*1.
Proof.
  unfold group_keys. induction (df.*1) as [|k0 ks IH]; simpl; [done|].
  rewrite elem_of_insert_key, elem_of_cons, IH. tauto.
Qed.

Lemma loc_keyed {A} (f : string -> A) (ks : list string) (k : string) d :
  loc ((fun k => (k, f k)) <$> ks) k d
  = Run d [] (if bool_decide (k ∈ ks) then Returns (f k) else Raises (KeyError k)).
Proof.
  induction ks as [|k0 ks IH]; [done|].
  rewrite fmap_cons. cbn [loc].
  destruct (String.eqb_spec k0 k) as [->|Hne].
  - rewrite bool_decide_eq_true_2 by left. reflexivity.
  - rewrite IH. apply f_equal.
    rewrite (bool_decide_ext (k ∈ k0 :: ks) (k ∈ ks)); [done|].
    rewrite elem_of_cons. split; [by intros [->|?]|by right].
Qed.

Lemma groupby_keyed {A} (f : list float -> A) (df : list (string * float)) :
  prod_map id f <$> groupby df = (fun k => (k, f (group k df))) <$> group_keys df.
Proof. unfold groupby. by rewrite <-list_fmap_compose. Qed.

Lemma loc_groupby {A} (f : list float -> A) (df : list (string * float)) k d :
  loc (prod_map id f <$> groupby df) k d
  = Run d [] (if bool_decide (k ∈ df.*1)
              then Returns (f (group k df)) else Raises (KeyError k)).
Proof.
  rewrite groupby_keyed, (loc_keyed (fun k => f (group k df))).
  by rewrite (bool_decide_ext _ _ (elem_of_group_keys k df)).
Qed.

Lemma in_index_groupby {A} (f : list float -> A) (df : list (string * float)) k :
  in_index k (prod_map id f <$> groupby df) = bool_decide (k ∈ df.*1).
Proof.
  unfold in_index. rewrite groupby_keyed, <-list_fmap_compose.
  apply bool_decide_ext. rewrite <-elem_of_group_keys.
  assert (Hid : forall ks : list string,
             (fst ∘ (fun k => (k, f (group k df)))) <$> ks = ks).
  { induction ks as [|k0 ks IH]; [done|]. by rewrite fmap_cons, IH. }
  by rewrite Hid.
Qed.

(** ** The benchmark analyzer *)

Lemma os_path_exists_log d :
  os_path_exists (os_path_join RESULTS_DIR "benchmarks.log") d
  = Run d [] (Returns (bool_decide (is_Some (benchmark_log d)))).
Proof. reflexivity. Qed.

Lemma open_log d :
  open (os_path_join RESULTS_DIR "benchmarks.log") d
  = match benchmark_log d with
    | Some f => Run d [] (Returns f)
    | None => Run d [] (Raises (FileNotFoundError (os_path_join RESULTS_DIR "benchmarks.log")))
    end.
Proof. reflexivity. Qed.

Lemma mean_label_run `{Pandas} df im d :
  mean_label df im d = Run d (mean_label_events df im) (Returns tt).
Proof.
  destruct im as [i mode]. unfold mean_label, mean_label_events. simpl.
  by destruct (bool_decide _).
Qed.

Lemma value_label_run ih d :
  value_label ih d = Run d [value_label_event ih] (Returns tt).
Proof. by destruct ih. Qed.

Section Benchmark.

Context `{Pandas}.
Variable d : directory.

Lemma analyze_execution_times_missing :
  benchmark_log d = None ->
  analyze_execution_times d
  = Run d [Print [Txt "Benchmark file not found: "; Txt "../results/benchmarks.log"]]
        (Returns tt).
Proof.
  intros Hlog. unfold analyze_execution_times. cbv zeta.
  rewrite (bind_pure _ _ _ _ _ (os_path_exists_log d)), Hlog.
  rewrite bool_decide_eq_false_2 by (by intros [? ?]). reflexivity.
Qed.

Lemma analyze_execution_times_unreadable f :
  benchmark_log d = Some f ->
  (forall rows, f <> Csv rows) ->
  analyze_execution_times d = Run d [] (Raises ParserError).
Proof.
  intros Hlog Hf. unfold analyze_execution_times. cbv zeta.
  rewrite (bind_pure _ _ _ _ _ (os_path_exists_log d)), Hlog.
  rewrite bool_decide_eq_true_2 by eauto. cbn [negb].
  apply bind_raises. unfold read_csv.
  rewrite (bind_pure _ _ _ d f) by (by rewrite open_log, Hlog).
  destruct f; try reflexivity. by destruct (Hf rows).
Qed.

Lemma analyze_execution_times_after_guard rows :
  benchmark_log d = Some (Csv rows) ->
  analyze_execution_times d
  = (let df := qualifying rows in
     if bool_decide (length df < 5)%nat then
       Run d [Print [Txt "Not enough data points. Found "; Int (length df);
                     Txt " benchmarks, need at least 5."];
              Print [Txt "Please run more benchmarks."]]
           (Returns tt)
     else if bool_decide ("parallel" ∈ df.*1) then
       if bool_decide ("sequential" ∈ df.*1) then
         Run (write_file "avg_execution_time.png" Image
                (write_file "execution_time_comparison.png" Image d))
             (summary_events df ++ comparison_events df) (Returns tt)
       else
         Run d (summary_events df
                ++ [Print [Txt "Parallel: ";
                           Fix 2 (F64.div (agg_mean (group "parallel" df)) (F64.of_Z 60));
                           Txt " minutes"]])
             (Raises (KeyError "sequential"))
     else Run d (summary_events df) (Raises (KeyError "parallel"))).
Proof.
  intros Hlog. unfold analyze_execution_times. cbv zeta.
  rewrite (bind_pure _ _ _ _ _ (os_path_exists_log d)), Hlog.
  rewrite bool_decide_eq_true_2 by eauto. cbn [negb].
  rewrite (bind_pure _ _ _ d rows)
    by (unfold read_csv; rewrite (bind_pure _ _ _ d (Csv rows));
        [done|by rewrite open_log, Hlog]).
  fold (qualifying rows). generalize (qualifying rows). clear rows Hlog. intros df.
  destruct (bool_decide (length df < 5)%nat); [reflexivity|].
  rewrite !in_index_groupby.
  destruct (bool_decide ("parallel" ∈ df.*1)) eqn:Hpar.
  - destruct (bool_decide ("sequential" ∈ df.*1)) eqn:Hseq.
    + cbn [andb]. etrans.
      { do 3 run.
        run_with ltac:(rewrite loc_groupby, Hpar; reflexivity). run.
        run_with ltac:(rewrite loc_groupby, Hseq; reflexivity). run.
        run_with ltac:(
          run_with ltac:(rewrite loc_groupby, Hseq; reflexivity);
          run_with ltac:(rewrite loc_groupby, Hpar; reflexivity);
          reflexivity).
        do 5 run.
        run_with ltac:(apply (for_events _ _ (mean_label_run df))).
        do 4 run.
        run_with ltac:(apply (for_events _ _ value_label_run)).
        repeat run. reflexivity. }
      rewrite bind_singleton. reflexivity.
    + etrans.
      { do 3 run.
        run_with ltac:(rewrite loc_groupby, Hpar; reflexivity). run.
        eapply bind_raises. rewrite loc_groupby, Hseq. reflexivity. }
      reflexivity.
  - etrans.
    { do 3 run. eapply bind_raises. rewrite loc_groupby, Hpar. reflexivity. }
    reflexivity.
Qed.

End Benchmark.

Lemma speedup_lines_mean_labels `{Pandas} df (l : list (nat * string)) :
  (l ≫= mean_label_events df)
    ≫= (fun e => match e with
                 | Print [Nl; Txt "Parallel speedup: "; Fix 2 x; Txt "x faster"] => [x]
                 | _ => []
                 end) = [].
Proof.
  induction l as [|im l IH]; [done|]. rewrite bind_cons, bind_app, IH.
  unfold mean_label_events. by destruct (bool_decide _).
Qed.

Lemma speedup_lines_value_labels (l : list (nat * float)) :
  (value_label_event <$> l)
    ≫= (fun e => match e with
                 | Print [Nl; Txt "Parallel speedup: "; Fix 2 x; Txt "x faster"] => [x]
                 | _ => []
                 end) = [].
Proof. induction l as [|ih l IH]; [done|]. by rewrite fmap_cons, bind_cons, IH. Qed.

(** C4 (as amended): once at least five qualifying rows remain and both
    modes are present among them, the analyzer prints the speedup, the
    mean of the sequential times divided by the mean of the parallel
    times, and prints no other speedup; for a parallel mean of 100 s and a
    sequential mean of 250 s it is exactly 2.5. *)
Theorem analyze_execution_times_speedup `{Pandas} (d : directory) rows :
  benchmark_log d = Some (Csv rows) ->
  (5 <= length (qualifying rows))%nat ->
  "parallel" ∈ (qualifying rows).*1 ->
  "sequential" ∈ (qualifying rows).*1 ->
  speedup_lines (trace (analyze_execution_times d))
  = [F64.div (agg_mean (group "sequential" (qualifying rows)))
             (agg_mean (group "parallel" (qualifying rows)))]
  /\ (agg_mean (group "parallel" (qualifying rows)) = F64.of_Z 100 ->
      agg_mean (group "sequential" (qualifying rows)) = F64.of_Z 250 ->
      speedup_of (qualifying rows) = F64.dec 25 1).
Proof.
  intros Hlog Hlen Hpar Hseq.
  rewrite (analyze_execution_times_after_guard d rows Hlog). cbv zeta.
  rewrite bool_decide_eq_false_2 by lia.
  rewrite !bool_decide_eq_true_2 by done. cbn [trace].
  split.
  - unfold summary_events, comparison_events, speedup_lines.
    rewrite !bind_app, speedup_lines_mean_labels, speedup_lines_value_labels.
    reflexivity.
  - intros Hp Hs. unfold speedup_of. rewrite Hp, Hs. vm_compute. reflexivity.
Qed.

Lemma analyze_execution_times_speedup_witness :
  speedup_lines (trace (analyze_execution_times (H := Textbook.pandas) Sample.full))
  = [F64.dec 25 1]
  /\ speedup_of (H := Textbook.pandas) (qualifying Sample.five_runs) = F64.dec 25 1.
Proof.
  assert (Hpar : "parallel" ∈ (qualifying Sample.five_runs).*1)
    by (apply (bool_decide_unpack _); reflexivity).
  assert (Hseq : "sequential" ∈ (qualifying Sample.five_runs).*1)
    by (apply (bool_decide_unpack _); reflexivity).
  assert (Hlen : (5 <= length (qualifying Sample.five_runs))%nat)
    by (apply (bool_decide_unpack _); reflexivity).
  destruct (analyze_execution_times_speedup (H := Textbook.pandas)
              Sample.full Sample.five_runs eq_refl Hlen Hpar Hseq)
    as (Hline & Hvalue).
  assert (Hspeedup : speedup_of (H := Textbook.pandas) (qualifying Sample.five_runs)
                     = F64.dec 25 1)
    by (apply Hvalue; vm_compute; reflexivity).
  split; [|exact Hspeedup]. rewrite Hline. exact (f_equal (fun x => [x]) Hspeedup).
Defined.

(** A log with both modes, a parallel mean of 100 s and a sequential mean
    of 250 s, and two rows only: the analyzer prints the not-enough-data
    message and reports no speedup. *)
Lemma speedup_not_reported_below_five_rows :
  "parallel" ∈ (qualifying Sample.two_runs).*1
  /\ "sequential" ∈ (qualifying Sample.two_runs).*1
  /\ Textbook.mean (group "parallel" (qualifying Sample.two_runs)) = F64.of_Z 100
  /\ Textbook.mean (group "sequential" (qualifying Sample.two_runs)) = F64.of_Z 250
  /\ analyze_execution_times (H := Textbook.pandas)
       [("benchmarks.log", Csv Sample.two_runs)]
     = Run [("benchmarks.log", Csv Sample.two_runs)]
           [Print [Txt "Not enough data points. Found "; Int 2;
                   Txt " benchmarks, need at least 5."];
            Print [Txt "Please run more benchmarks."]]
           (Returns tt).
Proof.
  split; [apply (bool_decide_unpack _); reflexivity|].
  split; [apply (bool_decide_unpack _); reflexivity|].
  repeat split; vm_compute; reflexivity.
Qed.

(** C6: the analyzer returns early, printing a diagnostic and nothing
    else, exactly when the benchmark log is missing or fewer than five
    rows remain after the restriction to the two modes; the diagnostics
    are the not-found line, and the not-enough line with the request for
    more runs. *)
Theorem analyze_execution_times_returns_early `{Pandas} (d : directory) :
  (returns_early (analyze_execution_times d)
   <-> benchmark_log d = None
       \/ exists rows, benchmark_log d = Some (Csv rows)
                       /\ (length (qualifying rows) < 5)%nat)
  /\ (benchmark_log d = None ->
      analyze_execution_times d
      = Run d [Print [Txt "Benchmark file not found: ";
                      Txt "../results/benchmarks.log"]]
            (Returns tt))
  /\ (forall rows,
        benchmark_log d = Some (Csv rows) ->
        (length (qualifying rows) < 5)%nat ->
        analyze_execution_times d
        = Run d [Print [Txt "Not enough data points. Found ";
                        Int (length (qualifying rows));
                        Txt " benchmarks, need at least 5."];
                 Print [Txt "Please run more benchmarks."]]
              (Returns tt)).
Proof.
  assert (Hfew : forall rows,
             benchmark_log d = Some (Csv rows) ->
             (length (qualifying rows) < 5)%nat ->
             analyze_execution_times d
             = Run d [Print [Txt "Not enough data points. Found ";
                             Int (length (qualifying rows));
                             Txt " benchmarks, need at least 5."];
                      Print [Txt "Please run more benchmarks."]]
                   (Returns tt)).
  { intros rows Hlog Hlen. rewrite (analyze_execution_times_after_guard d rows Hlog).
    cbv zeta. by rewrite bool_decide_eq_true_2. }
  split; [|split; [apply analyze_execution_times_missing|exact Hfew]].
  split.
  - intros (Hres & _ & Hmsg).
    destruct (benchmark_log d) as [f|] eqn:Hlog; [|by left]. right.
    assert (Hf : (exists rows, f = Csv rows) \/ (forall rows, f <> Csv rows)).
    { destruct f; eauto; by right. }
    destruct Hf as [[rows ->]|Hf].
    + exists rows. split; [done|].
      destruct (decide (length (qualifying rows) < 5)%nat) as [|Hlen]; [done|].
      exfalso. revert Hres Hmsg.
      rewrite (analyze_execution_times_after_guard d rows Hlog). cbv zeta.
      rewrite bool_decide_eq_false_2 by done.
      destruct (bool_decide _); [destruct (bool_decide _)|]; cbn [result trace];
        try discriminate.
      intros _ Hmsg. unfold summary_events in Hmsg.
      apply Forall_app in Hmsg as [Hmsg _].
      apply Forall_cons in Hmsg as [_ Hmsg]. apply Forall_cons in Hmsg as [Hmsg _].
      discriminate.
    + rewrite (analyze_execution_times_unreadable d f Hlog) in Hres by eauto.
      discriminate.
  - intros [Hlog|(rows & Hlog & Hlen)].
    + rewrite (analyze_execution_times_missing d Hlog). by repeat constructor.
    + rewrite (Hfew rows Hlog Hlen). by repeat constructor.
Qed.

(** With only three qualifying rows the analyzer prints the two lines of
    the not-enough-data diagnostic and does nothing else. *)
Example analyze_execution_times_three_rows :
  analyze_execution_times (H := Textbook.pandas)
    [("benchmarks.log", Csv Sample.three_qualifying)]
  = Run [("benchmarks.log", Csv Sample.three_qualifying)]
        [Print [Txt "Not enough data points. Found "; Int 3;
                Txt " benchmarks, need at least 5."];
         Print [Txt "Please run more benchmarks."]]
        (Returns tt).
Proof. vm_compute. reflexivity. Qed.

(** C9: with at least five qualifying rows the analyzer returns only when
    both modes are present among them.  When no row is parallel the line
    of the parallel mean raises [KeyError]; when no row is sequential the
    line of the sequential mean does. *)
Theorem analyze_execution_times_needs_both_modes `{Pandas} (d : directory) rows :
  benchmark_log d = Some (Csv rows) ->
  (5 <= length (qualifying rows))%nat ->
  (result (analyze_execution_times d) = Returns tt
   <-> "parallel" ∈ (qualifying rows).*1 /\ "sequential" ∈ (qualifying rows).*1)
  /\ ("parallel" ∉ (qualifying rows).*1 ->
      result (analyze_execution_times d) = Raises (KeyError "parallel"))
  /\ ("parallel" ∈ (qualifying rows).*1 ->
      "sequential" ∉ (qualifying rows).*1 ->
      result (analyze_execution_times d) = Raises (KeyError "sequential")).
Proof.
  intros Hlog Hlen.
  rewrite (analyze_execution_times_after_guard d rows Hlog). cbv zeta.
  rewrite bool_decide_eq_false_2 by lia.
  destruct (bool_decide_reflect ("parallel" ∈ (qualifying rows).*1)) as [Hpar|Hpar];
    [destruct (bool_decide_reflect ("sequential" ∈ (qualifying rows).*1)) as [Hseq|Hseq]|];
    cbn [result]; repeat split; try done; try tauto; try (intros [? ?]; done).
Qed.

Lemma analyze_execution_times_needs_both_modes_witness :
  result (analyze_execution_times (H := Textbook.pandas)
            [("benchmarks.log", Csv Sample.parallel_only)])
  = Raises (KeyError "sequential").
Proof.
  assert (Hlen : (5 <= length (qualifying Sample.parallel_only))%nat)
    by (apply (bool_decide_unpack _); reflexivity).
  destruct (analyze_execution_times_needs_both_modes (H := Textbook.pandas)
              [("benchmarks.log", Csv Sample.parallel_only)]
              Sample.parallel_only eq_refl Hlen)
    as (_ & _ & Hseq).
  apply Hseq.
  - apply (bool_decide_unpack _). reflexivity.
  - apply (bool_decide_unpack (_ ∉ _)). reflexivity.
Defined.

(** ** The index of a grouped table *)

Lemma ascii_compare_lt_trans a b c :
  Ascii.compare a b = Lt -> Ascii.compare b c = Lt -> Ascii.compare a c = Lt.
Proof. unfold Ascii.compare. rewrite !N.compare_lt_iff. lia. Qed.

Lemma key_lt_trans a b c : key_lt a b -> key_lt b c -> key_lt a c.
Proof.
  unfold key_lt. revert b c.
  induction a as [|x a IH]; intros [|y b] [|z c]; simpl; try done.
  destruct (Ascii.compare x y) eqn:Hxy; try done;
    destruct (Ascii.compare y z) eqn:Hyz; try done.
  - apply Ascii.compare_eq_iff in Hxy as ->, Hyz as ->.
    assert (Hzz : Ascii.compare z z = Eq) by apply N.compare_refl.
    rewrite Hzz. apply IH.
  - apply Ascii.compare_eq_iff in Hxy as ->. by rewrite Hyz.
  - apply Ascii.compare_eq_iff in Hyz as <-. by rewrite Hxy.
  - by rewrite (ascii_compare_lt_trans _ _ _ Hxy Hyz).
Qed.

Lemma key_lt_irrefl a : ~ key_lt a a.
Proof.
  unfold key_lt. induction a as [|x a IH]; simpl; [done|].
  assert (Hxx : Ascii.compare x x = Eq) by apply N.compare_refl.
  by rewrite Hxx.
Qed.

Lemma insert_key_sorted k ks :
  StronglySorted key_lt ks -> StronglySorted key_lt (insert_key k ks).
Proof.
  induction 1 as [|k0 ks Hks IH Hk0]; simpl; [repeat constructor|].
  destruct (String.compare k k0) eqn:Hc.
  - by constructor.
  - constructor; [by constructor|]. constructor; [done|].
    eapply Forall_impl; [exact Hk0|]. intros k1. by apply key_lt_trans.
  - constructor; [done|]. apply Forall_forall. intros k1 Hk1.
    apply elem_of_insert_key in Hk1 as [->|Hk1].
    + unfold key_lt. by rewrite String.compare_antisym, Hc.
    + by eapply (proj1 (Forall_forall _ _) Hk0).
Qed.

Lemma group_keys_sorted (df : list (string * float)) :
  StronglySorted key_lt (group_keys df).
Proof.
  unfold group_keys. induction (df.*1) as [|k ks IH]; simpl; [constructor|].
  by apply insert_key_sorted.
Qed.

Lemma sorted_NoDup ks : StronglySorted key_lt ks -> NoDup ks.
Proof.
  induction 1 as [|k ks _ IH Hk]; constructor; [|done].
  intros Hin. by eapply key_lt_irrefl, (proj1 (Forall_forall _ _) Hk).
Qed.

Lemma groupby_index {A} (f : list float -> A) (df : list (string * float)) :
  (prod_map id f <$> groupby df).*1 = group_keys df.
Proof.
  rewrite groupby_keyed, <-list_fmap_compose.
  induction (group_keys df) as [|k ks IH]; [done|]. by rewrite fmap_cons, IH.
Qed.

(** A grouped table has one row for each key of the frame, in increasing
    order of the keys, and the row of a key aggregates the values of its
    rows in frame order. *)
Lemma groupby_table {A} (f : list float -> A) (df : list (string * float)) :
  StronglySorted key_lt (prod_map id f <$> groupby df).*1
  /\ NoDup (prod_map id f <$> groupby df).*1
  /\ (forall k, k ∈ (prod_map id f <$> groupby df).*1 <-> k ∈ df.*1)
  /\ (forall k a, (k, a) ∈ prod_map id f <$> groupby df -> a = f (group k df)).
Proof.
  rewrite groupby_index.
  split; [apply group_keys_sorted|].
  split; [apply sorted_NoDup, group_keys_sorted|].
  split; [intros k; apply elem_of_group_keys|].
  intros k a. rewrite groupby_keyed, list_elem_of_fmap.
  intros (k' & Heq & _). by simplify_eq.
Qed.

(** ** The variation analyzer *)

Lemma variation_loop d ns recs acc :
  Forall2 (fun n data => lookup_file n d = Some (Json data)) ns recs ->
  for_each variation_step (os_path_join RESULTS_DIR <$> ns) acc d
  = Run d [] (Returns (acc ++ (variation_row <$> recs))).
Proof.
  intros Hall. revert acc. induction Hall as [|n data ns recs Hn _ IH]; intros acc.
  - simpl. by rewrite app_nil_r.
  - rewrite !fmap_cons. cbn [for_each].
    rewrite (bind_pure _ _ _ d (acc ++ [variation_row data])).
    + rewrite IH, <-app_assoc. reflexivity.
    + unfold variation_step, load_json_data.
      rewrite (bind_pure _ _ _ d data); [done|].
      by rewrite (bind_pure _ _ _ _ _ (open_resolved _ _ _ Hn)).
Qed.

Lemma mode_and_sharpe_typed (data : list Variation.row) df :
  Forall2 (fun r p => Variation.ExecutionMode r = VStr p.1
                      /\ Variation.SharpeRatio r = VNum p.2) data df ->
  mapM mode_and_sharpe data = Some df.
Proof.
  intros Hall. apply mapM_Some. eapply Forall2_impl; [exact Hall|].
  intros r [mode sharpe] [Hm Hs]. unfold mode_and_sharpe. by rewrite Hm, Hs.
Qed.


(** The three sample results: two parallel runs and one sequential run. *)
Example analyze_portfolio_variations_three_results :
  analyze_portfolio_variations (H := Textbook.pandas) Sample.three_results
  = Run (Sample.three_results ++ [("sharpe_ratio_comparison.png", Image)])
        (variation_events (H := Textbook.pandas)
           [("parallel", F64.dec 5 1); ("sequential", F64.dec 12 1);
            ("parallel", F64.dec 9 1)])
        (Returns tt)
  /\ groupby [("parallel", F64.dec 5 1); ("sequential", F64.dec 12 1);
              ("parallel", F64.dec 9 1)]
     = [("parallel", [F64.dec 5 1; F64.dec 9 1]); ("sequential", [F64.dec 12 1])].
Proof. split; reflexivity. Qed.

(** Missing fields take their defaults. *)
Example variation_row_defaults :
  variation_row {[ "SharpeRatio" := VNum (F64.dec 12 1) ]}
  = Variation.Row (VStr "unknown") (VNum (F64.dec 12 1)) (VNum (F64.of_Z 0)) (VStr "").
Proof. reflexivity. Qed.

(** ** Inputs and outputs of a run *)

Lemma keyed_fst {A} (g : string -> A) (l : list string) :
  ((fun n => (n, g n)) <$> l).*1 = l.
Proof. induction l as [|n l IH]; [done|]. by rewrite !fmap_cons, IH. Qed.

Lemma keyed_inj {A} (g g' : string -> A) (l : list string) n :
  (fun n => (n, g n)) <$> l = (fun n => (n, g' n)) <$> l -> n ∈ l -> g n = g' n.
Proof.
  induction l as [|n0 l IH]; intros Heq Hin; [by apply elem_of_nil in Hin|].
  rewrite !fmap_cons in Heq. injection Heq as Hhead Htail.
  apply elem_of_cons in Hin as [->|Hin]; [done|]. by apply IH.
Qed.

Lemma same_inputs_files d d' : same_inputs d d' -> result_files d = result_files d'.
Proof.
  intros Hsame. apply (f_equal (fun i => i.1.*1)) in Hsame.
  simpl in Hsame. by rewrite !keyed_fst in Hsame.
Qed.

Lemma same_inputs_lookup d d' n :
  same_inputs d d' -> n ∈ result_files d -> lookup_file n d = lookup_file n d'.
Proof.
  intros Hsame Hin. pose proof (same_inputs_files _ _ Hsame) as Hfiles.
  apply (f_equal fst) in Hsame. simpl in Hsame. rewrite <-Hfiles in Hsame.
  by apply (keyed_inj _ _ _ n Hsame).
Qed.

Lemma same_inputs_log d d' : same_inputs d d' -> benchmark_log d = benchmark_log d'.
Proof. intros Hsame. by apply (f_equal snd) in Hsame. Qed.

Lemma same_inputs_paths d d' fs :
  same_inputs d d' -> Forall (result_path d) fs -> Forall (result_path d') fs.
Proof.
  intros Hsame Hfs. eapply Forall_impl; [exact Hfs|].
  intros p [Hdir Hin]. split; [done|].
  by rewrite <-(same_inputs_files _ _ Hsame).
Qed.

Lemma lookup_write_file_ne name n f d :
  n <> name -> lookup_file n (write_file name f d) = lookup_file n d.
Proof.
  intros Hne. induction d as [|[n0 g] d IH]; simpl.
  - destruct (String.eqb_spec name n); [by subst|done].
  - destruct (String.eqb_spec n0 name) as [->|Hn0]; simpl.
    + destruct (String.eqb_spec name n); [by subst|done].
    + by rewrite IH.
Qed.

Lemma write_file_names name f d :
  (write_file name f d).*1 = d.*1 \/ (write_file name f d).*1 = d.*1 ++ [name].
Proof.
  induction d as [|[n0 g] d IH]; [by right|]. cbn [write_file].
  destruct (String.eqb_spec n0 name) as [->|Hn0]; [by left|].
  rewrite !fmap_cons. cbn [fst]. destruct IH as [->| ->]; [by left|by right].
Qed.

Lemma result_files_write_file name f d :
  fnmatch "optimal_portfolio_" ".json" name = false ->
  result_files (write_file name f d) = result_files d.
Proof.
  intros Hname. unfold result_files.
  destruct (write_file_names name f d) as [->| ->]; [done|].
  rewrite filter_app, filter_cons_False, filter_nil, app_nil_r; [done|].
  by rewrite Hname.
Qed.

(** Writing a file that is neither a result file nor the log leaves the
    inputs as they are. *)
Lemma write_file_same_inputs name f d :
  fnmatch "optimal_portfolio_" ".json" name = false ->
  name <> "benchmarks.log" ->
  same_inputs d (write_file name f d).
Proof.
  intros Hname Hlog. unfold same_inputs, inputs, benchmark_log.
  rewrite result_files_write_file, (lookup_write_file_ne name "benchmarks.log") by done.
  f_equal. apply list_fmap_ext. intros i n Hn. f_equal.
  rewrite lookup_write_file_ne; [done|]. intros ->.
  apply list_elem_of_lookup_2, list_elem_of_filter in Hn as [Hn _]. congruence.
Qed.

Lemma stable_const {A} fs (m : Py A) t r :
  (forall d, m d = Run d t r) -> stable_on fs m.
Proof. intros Hm d d' _ Hsame. by rewrite !Hm. Qed.

Lemma stable_ret {A} fs (a : A) : stable_on fs (mret a).
Proof. by apply (stable_const fs _ [] (Returns a)). Qed.

Lemma stable_raise {A} fs e : stable_on fs (raise (A := A) e).
Proof. by apply (stable_const fs _ [] (Raises e)). Qed.

Lemma stable_emit fs e : stable_on fs (emit e).
Proof. by apply (stable_const fs _ [e] (Returns tt)). Qed.

Lemma stable_bind {A B} fs (m : Py A) (k : A -> Py B) :
  stable_on fs m -> (forall a, stable_on fs (k a)) -> stable_on fs (m ≫= k).
Proof.
  intros Hm Hk d d' Hfs Hsame.
  destruct (Hm d d' Hfs Hsame) as (Ht & Hr & Hd & Hself).
  rewrite !bind_run.
  destruct (m d) as [d1 t1 [a|e]], (m d') as [d1' t1' r']; simpl in *; subst.
  - destruct (Hk a d1 d1' (same_inputs_paths _ _ _ Hself Hfs) Hd)
      as (Ht2 & Hr2 & Hd2 & Hself2).
    destruct (k a d1) as [d2 t2 r2], (k a d1') as [d2' t2' r2']; simpl in *; subst.
    repeat split; [done|]. unfold same_inputs in *. congruence.
  - done.
Qed.

Lemma stable_glob {B} fs (k : list path -> Py B) :
  (forall fs', stable_on fs' (k fs')) ->
  stable_on fs (glob RESULTS_DIR "optimal_portfolio_" ".json" ≫= k).
Proof.
  intros Hk d d' _ Hsame.
  rewrite !(bind_pure _ _ _ _ _ (glob_results _)).
  rewrite <-(same_inputs_files _ _ Hsame). apply Hk; [|done].
  apply Forall_fmap, Forall_forall. by intros n Hn.
Qed.

Lemma stable_open_result fs p : p ∈ fs -> stable_on fs (open p).
Proof.
  intros Hp d d' Hfs Hsame.
  destruct (proj1 (Forall_forall _ _) Hfs p Hp) as [Hdir Hin].
  unfold open, resolve. rewrite Hdir. cbn [String.eqb].
  change (String.eqb RESULTS_DIR RESULTS_DIR) with true. cbv iota.
  rewrite <-(same_inputs_lookup _ _ _ Hsame Hin).
  by destruct (lookup_file (basename p) d).
Qed.

Lemma stable_open_log fs :
  stable_on fs (open (os_path_join RESULTS_DIR "benchmarks.log")).
Proof.
  intros d d' _ Hsame. rewrite !open_log, <-(same_inputs_log _ _ Hsame).
  by destruct (benchmark_log d).
Qed.

Lemma stable_exists_log fs :
  stable_on fs (os_path_exists (os_path_join RESULTS_DIR "benchmarks.log")).
Proof.
  intros d d' _ Hsame. by rewrite !os_path_exists_log, <-(same_inputs_log _ _ Hsame).
Qed.

Lemma stable_savefig fs name :
  fnmatch "optimal_portfolio_" ".json" name = false ->
  name <> "benchmarks.log" ->
  stable_on fs (savefig (os_path_join RESULTS_DIR name)).
Proof.
  intros Hname Hlog d d' _ Hsame. unfold savefig. simpl.
  pose proof (write_file_same_inputs name Image d Hname Hlog) as Hd.
  pose proof (write_file_same_inputs name Image d' Hname Hlog) as Hd'.
  repeat split; [|done]. unfold same_inputs in *. congruence.
Qed.

Lemma stable_for_each {A S} fs (body : A -> S -> Py S) (l : list A) (s : S) :
  (forall x s, x ∈ l -> stable_on fs (body x s)) ->
  stable_on fs (for_each body l s).
Proof.
  revert s. induction l as [|x l IH]; intros s Hbody; simpl.
  - apply stable_ret.
  - apply stable_bind; [apply Hbody; by left|].
    intros s'. apply IH. intros y s'' Hy. apply Hbody. by right.
Qed.

Lemma stable_for {A} fs (body : A -> Py unit) (l : list A) :
  (forall x, x ∈ l -> stable_on fs (body x)) -> stable_on fs (for_ body l).
Proof. intros Hbody. apply stable_for_each. intros x _. apply Hbody. Qed.

Lemma stable_loc {A} fs (t : list (string * A)) k : stable_on fs (loc t k).
Proof.
  induction t as [|[k0 a] t IH]; simpl; [apply stable_raise|].
  destruct (String.eqb k0 k); [apply stable_ret|done].
Qed.

Ltac stable_step :=
  lazymatch goal with
  | |- stable_on _ (mret _) => apply stable_ret
  | |- stable_on _ (raise _) => apply stable_raise
  | |- stable_on _ (emit _) => apply stable_emit
  | |- stable_on _ (print _) => apply stable_emit
  | |- stable_on _ (draw _) => apply stable_emit
  | |- stable_on _ show => apply stable_emit
  | |- stable_on _ (loc _ _) => apply stable_loc
  | |- stable_on _ (savefig _) => apply stable_savefig; [reflexivity|discriminate]
  | |- stable_on _ (os_path_exists _) => apply stable_exists_log
  | |- stable_on _ (open _) =>
      first [apply stable_open_log | apply stable_open_result; assumption]
  | |- stable_on _ (glob _ _ _ ≫= _) => apply stable_glob; intros ?
  | |- stable_on _ (_ ≫= _) => apply stable_bind; [|intros ?]
  | |- stable_on _ (for_ _ _) => apply stable_for; intros ? ?
  | |- stable_on _ (for_each _ _ _) => apply stable_for_each; intros ? ? ?
  | |- stable_on _ (if ?b then _ else _) => destruct b
  | |- stable_on _ (match ?x with _ => _ end) => destruct x
  end.

Ltac stable :=
  repeat first
    [ stable_step
    | progress (unfold getitem, fmt, local, py_gt, DataFrame, load_json_data,
                  read_csv, bar_label, mean_label, value_label, find_best_step,
                  variation_step, boxplot, grouped_stats;
                cbv beta zeta) ].

Lemma stable_find_best_portfolio : stable_on [] find_best_portfolio.
Proof. unfold find_best_portfolio. stable. Qed.

Lemma stable_plot_best_portfolio p : stable_on [] (plot_best_portfolio p).
Proof. unfold plot_best_portfolio. stable. Qed.

Lemma stable_analyze_execution_times `{Pandas} : stable_on [] analyze_execution_times.
Proof. unfold analyze_execution_times. stable. Qed.

Lemma stable_analyze_portfolio_variations `{Pandas} :
  stable_on [] analyze_portfolio_variations.
Proof. unfold analyze_portfolio_variations. stable. Qed.

Lemma stable_main `{Pandas} : stable_on [] main.
Proof.
  unfold main.
  repeat first
    [ apply stable_find_best_portfolio
    | apply stable_plot_best_portfolio
    | apply stable_analyze_execution_times
    | apply stable_analyze_portfolio_variations
    | stable_step ].
Qed.

(** C10: running [main] a second time, in the directory the first run
    left behind, prints and draws exactly what the first run did and ends
    the same way: the charts written by a run are neither result files nor
    the benchmark log, and a run reads nothing else. *)
Theorem main_twice `{Pandas} (d : directory) :
  trace (main (dir_after (main d))) = trace (main d)
  /\ result (main (dir_after (main d))) = result (main d)
  /\ same_inputs d (dir_after (main d)).
Proof.
  assert (Hrefl : same_inputs d d) by done.
  destruct (stable_main d d (Forall_nil_2 _) Hrefl) as (_ & _ & _ & Hself).
  destruct (stable_main d (dir_after (main d)) (Forall_nil_2 _) Hself)
    as (Ht & Hr & _ & _).
  by rewrite Ht, Hr.
Qed.

(** Two runs over the sample directory: the second finds the four charts
    of the first and prints the same lines. *)
Example main_twice_sample :
  (dir_after (main (H := Textbook.pandas) Sample.full)).*1
  = ["optimal_portfolio_1.json"; "optimal_portfolio_2.json"; "optimal_portfolio_3.json";
     "benchmarks.log"; "best_portfolio_weights.png"; "execution_time_comparison.png";
     "avg_execution_time.png"; "sharpe_ratio_comparison.png"]
  /\ trace (main (H := Textbook.pandas) (dir_after (main (H := Textbook.pandas) Sample.full)))
     = trace (main (H := Textbook.pandas) Sample.full).
Proof. split; reflexivity. Qed.

(** * Further properties *)

(** ** The finder on an arbitrary directory *)

Lemma lookup_file_elem n (d : directory) : n ∈ d.*1 -> is_Some (lookup_file n d).
Proof.
  induction d as [|[n0 f] d IH]; [by intros ?%elem_of_nil|].
  rewrite fmap_cons, elem_of_cons. cbn [fst lookup_file].
  destruct (String.eqb_spec n0 n) as [->|Hne]; [by eauto|].
  intros [->|Hin]; [done|by apply IH].
Qed.

Lemma result_files_elem n d : n ∈ result_files d -> n ∈ d.*1.
Proof. unfold result_files. by intros [_ ?]%list_elem_of_filter. Qed.

Lemma load_json_data_run n d :
  load_json_data (os_path_join RESULTS_DIR n) d
  = Run d [] match lookup_file n d with
             | Some (Json data) => Returns data
             | Some _ => Raises JSONDecodeError
             | None => Raises (FileNotFoundError (os_path_join RESULTS_DIR n))
             end.
Proof.
  unfold load_json_data. rewrite bind_run. unfold open, resolve. simpl.
  destruct (lookup_file n d) as [[]|]; reflexivity.
Qed.

Lemma find_best_step_ok d n st :
  scan_ok d st ->
  n ∈ result_files d ->
  exists r, find_best_step (os_path_join RESULTS_DIR n) st d = Run d [] r
            /\ match r with Returns st' => scan_ok d st' | Raises _ => True end.
Proof.
  intros Hst Hn.
  assert (Hb : exists b, best_sharpe st = VNum b
                         /\ (b = F64.neg_inf \/ F64.lt F64.neg_inf b = true)).
  { destruct Hst as [->|(? & ? & x & -> & _ & _ & _ & Hx)]; simpl; eauto. }
  destruct Hb as (b & Hb & Hinf).
  unfold find_best_step. rewrite bind_run, load_json_data_run.
  destruct (lookup_file n d) as [[data| | |]|] eqn:Hfile; try (by eexists).
  simpl. unfold get, getitem. rewrite Hb.
  destruct (data !! "SharpeRatio") as [[|x| |]|] eqn:Hscore; simpl;
    try (by eexists).
  - rewrite bind_run. simpl. destruct (F64.lt b x) eqn:Hlt; simpl.
    + eexists. split; [reflexivity|]. right. exists n, data, x.
      repeat split; try done.
      destruct Hinf as [->|Hinf]; [done|]. by apply (lt_trans _ b).
    + by eexists.
  - rewrite bind_run. simpl. destruct (F64.lt b (F64.of_Z 0)); simpl; by eexists.
Qed.

Lemma find_best_loop_ok d ns st :
  scan_ok d st ->
  Forall (fun n => n ∈ result_files d) ns ->
  exists r, for_each find_best_step (os_path_join RESULTS_DIR <$> ns) st d = Run d [] r
            /\ match r with Returns st' => scan_ok d st' | Raises _ => True end.
Proof.
  intros Hst Hns. revert st Hst. induction Hns as [|n ns Hn _ IH]; intros st Hst.
  - by exists (Returns st).
  - rewrite fmap_cons. cbn [for_each].
    destruct (find_best_step_ok d n st Hst Hn) as ([st'|e] & Hstep & Hst').
    + rewrite (bind_pure _ _ _ _ _ Hstep). by apply IH.
    + exists (Raises e). split; [|done]. by apply bind_raises.
Qed.

(** The finder either raises, having printed nothing, or returns the
    record of a result file that has a numeric ratio, having printed its
    two lines. *)
Lemma find_best_portfolio_shape d :
  (exists e, find_best_portfolio d = Run d [] (Raises e))
  \/ (exists n data x,
        n ∈ result_files d
        /\ lookup_file n d = Some (Json data)
        /\ data !! "SharpeRatio" = Some (VNum x)
        /\ F64.lt F64.neg_inf x = true
        /\ find_best_portfolio d = Run d (best_lines n x) (Returns (Some data))).
Proof.
  unfold find_best_portfolio.
  rewrite (bind_pure _ _ _ _ _ (glob_results d)).
  destruct (find_best_loop_ok d (result_files d) (Scan (VNum F64.neg_inf) None None))
    as ([st|e] & Hloop & Hst); [by left|by apply Forall_forall| |].
  - rewrite (bind_pure _ _ _ _ _ Hloop).
    destruct Hst as [->|(n & data & x & -> & Hn & Hfile & Hscore & Hx)].
    + left. by eexists.
    + right. by exists n, data, x.
  - left. exists e. by apply bind_raises.
Qed.


(** X2: whenever the finder returns, it returns the record of one of the
    matching files, that record has a numeric Sharpe ratio above minus
    infinity (so it is not a NaN), and the lines printed name that file
    and that ratio; it never returns [None], an empty record or a record
    without the field. *)
Theorem find_best_portfolio_returns_scored_record (d : directory) p :
  result (find_best_portfolio d) = Returns p ->
  exists n data x,
    p = Some data
    /\ n ∈ result_files d
    /\ lookup_file n d = Some (Json data)
    /\ data !! "SharpeRatio" = Some (VNum x)
    /\ F64.lt F64.neg_inf x = true
    /\ trace (find_best_portfolio d) = best_lines n x.
Proof.
  destruct (find_best_portfolio_shape d)
    as [[e ->]|(n & data & x & Hn & Hfile & Hscore & Hx & ->)]; simpl; [done|].
  intros [= <-]. by exists n, data, x.
Qed.

Lemma find_best_portfolio_returns_scored_record_witness :
  exists n data x,
    Some (Sample.result (F64.dec 12 1) "sequential") = Some data
    /\ n ∈ result_files Sample.three_results
    /\ lookup_file n Sample.three_results = Some (Json data)
    /\ data !! "SharpeRatio" = Some (VNum x)
    /\ F64.lt F64.neg_inf x = true
    /\ trace (find_best_portfolio Sample.three_results) = best_lines n x.
Proof.
  apply (find_best_portfolio_returns_scored_record Sample.three_results).
  reflexivity.
Defined.

(** ** Files that do not parse *)

Lemma find_best_loop_broken d ns st n f :
  scan_ok d st ->
  Forall (fun n => n ∈ result_files d) ns ->
  n ∈ ns ->
  lookup_file n d = Some f ->
  is_json f = false ->
  exists e, for_each find_best_step (os_path_join RESULTS_DIR <$> ns) st d
            = Run d [] (Raises e).
Proof.
  intros Hst Hns Hn Hfile Hf. revert st Hst.
  induction Hns as [|n0 ns Hn0 _ IH]; intros st Hst; [by apply elem_of_nil in Hn|].
  rewrite fmap_cons. cbn [for_each].
  destruct (find_best_step_ok d n0 st Hst Hn0) as ([st'|e] & Hstep & Hst').
  - rewrite (bind_pure _ _ _ _ _ Hstep).
    apply elem_of_cons in Hn as [->|Hn]; [|by apply IH].
    exfalso. revert Hstep. unfold find_best_step.
    rewrite bind_run, load_json_data_run, Hfile. by destruct f.
  - exists e. by apply bind_raises.
Qed.

Lemma variation_step_run n acc d :
  variation_step (os_path_join RESULTS_DIR n) acc d
  = Run d [] match lookup_file n d with
             | Some (Json data) => Returns (acc ++ [variation_row data])
             | Some _ => Raises JSONDecodeError
             | None => Raises (FileNotFoundError (os_path_join RESULTS_DIR n))
             end.
Proof.
  unfold variation_step. rewrite bind_run, load_json_data_run.
  destruct (lookup_file n d) as [[]|]; reflexivity.
Qed.

Lemma variation_loop_shape d ns acc :
  Forall (fun n => n ∈ d.*1) ns ->
  (exists n f, n ∈ ns /\ lookup_file n d = Some f /\ is_json f = false
               /\ for_each variation_step (os_path_join RESULTS_DIR <$> ns) acc d
                  = Run d [] (Raises JSONDecodeError))
  \/ (exists recs,
        Forall2 (fun n data => lookup_file n d = Some (Json data)) ns recs
        /\ for_each variation_step (os_path_join RESULTS_DIR <$> ns) acc d
           = Run d [] (Returns (acc ++ (variation_row <$> recs)))).
Proof.
  intros Hns. revert acc. induction Hns as [|n ns Hn _ IH]; intros acc.
  - right. exists []. split; [constructor|]. simpl. by rewrite app_nil_r.
  - rewrite fmap_cons. cbn [for_each].
    destruct (lookup_file_elem n d Hn) as [f Hfile].
    pose proof (variation_step_run n acc d) as Hstep. rewrite Hfile in Hstep.
    destruct (is_json f) eqn:Hf.
    + destruct f as [data| | |]; try discriminate.
      rewrite (bind_pure _ _ _ _ _ Hstep).
      destruct (IH (acc ++ [variation_row data]))
        as [(n' & f' & Hn' & Hfile' & Hf' & ->)|(recs & Hrecs & ->)].
      * left. exists n', f'. repeat split; try done. by right.
      * right. exists (data :: recs). split; [by constructor|].
        by rewrite fmap_cons, <-app_assoc.
    + left. exists n, f. repeat split; [by left|done..|].
      apply bind_raises. rewrite Hstep. by destruct f.
Qed.

(** X3: one matching file that is not JSON is enough to stop both scans:
    the finder raises and prints nothing, and the variation analyzer
    raises [JSONDecodeError] having printed, drawn and written nothing,
    whatever the other files hold. *)
Theorem broken_result_file_stops_the_scans `{Pandas} (d : directory) n f :
  n ∈ result_files d ->
  lookup_file n d = Some f ->
  is_json f = false ->
  (exists e, find_best_portfolio d = Run d [] (Raises e))
  /\ analyze_portfolio_variations d = Run d [] (Raises JSONDecodeError).
Proof.
  intros Hn Hfile Hf. split.
  - unfold find_best_portfolio. rewrite (bind_pure _ _ _ _ _ (glob_results d)).
    destruct (find_best_loop_broken d (result_files d)
                (Scan (VNum F64.neg_inf) None None) n f) as [e He]; try done.
    + by left.
    + by apply Forall_forall.
    + exists e. by apply bind_raises.
  - unfold analyze_portfolio_variations.
    rewrite (bind_pure _ _ _ _ _ (glob_results d)).
    destruct (variation_loop_shape d (result_files d) [])
      as [(_ & _ & _ & _ & _ & Hloop)|(recs & Hrecs & _)].
    + apply Forall_forall. intros ?. apply result_files_elem.
    + by apply bind_raises.
    + exfalso. apply list_elem_of_lookup in Hn as [i Hi].
      destruct (Forall2_lookup_l _ _ _ _ _ Hrecs Hi) as (data & _ & Hdata).
      rewrite Hfile in Hdata. by simplify_eq.
Qed.

Lemma broken_result_file_stops_the_scans_witness :
  (exists e, find_best_portfolio Sample2.with_broken_file
             = Run Sample2.with_broken_file [] (Raises e))
  /\ analyze_portfolio_variations (H := Textbook.pandas) Sample2.with_broken_file
     = Run Sample2.with_broken_file [] (Raises JSONDecodeError).
Proof.
  apply (broken_result_file_stops_the_scans (H := Textbook.pandas)
           Sample2.with_broken_file "optimal_portfolio_2.json" Other).
  - apply (bool_decide_unpack _). reflexivity.
  - reflexivity.
  - reflexivity.
Defined.

(** ** The variation analyzer on an arbitrary directory *)

(** What the variation analyzer does once every result file has loaded
    and there is at least one: the figure is opened, then the plot, the
    save and the aggregation follow in this order, and the plot or the
    aggregation may raise on columns that are not labels and numbers. *)
Lemma analyze_portfolio_variations_cases `{Pandas} d recs :
  Forall2 (fun n data => lookup_file n d = Some (Json data)) (result_files d) recs ->
  result_files d <> [] ->
  analyze_portfolio_variations d
  = match mapM mode_and_sharpe (variation_row <$> recs) with
    | Some df =>
        Run (write_file "sharpe_ratio_comparison.png" Image d)
            (variation_events df) (Returns tt)
    | None =>
        match boxplot_other (columns (variation_row <$> recs)) with
        | Some e => Run d [Draw (Figure 10 6)] (Raises e)
        | None =>
            match agg_other (columns (variation_row <$> recs)) with
            | inl e =>
                Run (write_file "sharpe_ratio_comparison.png" Image d)
                    [Draw (Figure 10 6);
                     Draw (BoxPlotOf (columns (variation_row <$> recs)));
                     Draw (Title [Txt "Sharpe Ratio Comparison: Parallel vs Sequential"]);
                     Draw (YLabel "Sharpe Ratio");
                     Draw (XLabel "Execution Mode");
                     SaveFig (os_path_join RESULTS_DIR "sharpe_ratio_comparison.png");
                     Show]
                    (Raises e)
            | inr t =>
                Run (write_file "sharpe_ratio_comparison.png" Image d)
                    [Draw (Figure 10 6);
                     Draw (BoxPlotOf (columns (variation_row <$> recs)));
                     Draw (Title [Txt "Sharpe Ratio Comparison: Parallel vs Sequential"]);
                     Draw (YLabel "Sharpe Ratio");
                     Draw (XLabel "Execution Mode");
                     SaveFig (os_path_join RESULTS_DIR "sharpe_ratio_comparison.png");
                     Show;
                     Print [Nl; Txt "Sharpe Ratio Statistics:"];
                     PrintTable t]
                    (Returns tt)
            end
        end
    end.
Proof.
  intros Hrecs Hsome.
  pose proof (variation_loop d _ _ [] Hrecs) as Hloop. simpl in Hloop.
  unfold analyze_portfolio_variations.
  rewrite (bind_pure _ _ _ _ _ (glob_results d)).
  rewrite (bind_pure _ _ _ _ _ Hloop).
  rewrite bool_decide_eq_false_2.
  2:{ intros Hnil%fmap_nil_inv. subst recs.
      by apply Forall2_nil_inv_r in Hrecs. }
  cbv zeta. unfold boxplot, grouped_stats.
  destruct (mapM mode_and_sharpe (variation_row <$> recs)) as [df|].
  { etrans; [repeat run; reflexivity|]. reflexivity. }
  destruct (boxplot_other (columns (variation_row <$> recs))) as [e|].
  { etrans; [run; apply bind_raises; reflexivity|]. reflexivity. }
  destruct (agg_other (columns (variation_row <$> recs))) as [e|t].
  - etrans; [do 7 run; apply bind_raises; reflexivity|]. reflexivity.
  - etrans; [repeat run; reflexivity|]. reflexivity.
Qed.

(** X9: the variation analyzer reads every result file before it draws
    or prints anything, and it prints its statistics last, after the
    chart is saved.  Either some file does not load, and it raises having
    emitted and written nothing; or there is no file, and it prints its
    no-data line alone; or it opens its figure first, and then a run that
    raises has printed nothing and has either written nothing or saved
    the chart, while a run that returns has saved the chart and ends with
    the heading of the statistics and their table. *)
Theorem analyze_portfolio_variations_outcomes `{Pandas} (d : directory) :
  ((exists n f, n ∈ result_files d /\ lookup_file n d = Some f /\ is_json f = false)
   /\ analyze_portfolio_variations d = Run d [] (Raises JSONDecodeError))
  \/ (result_files d = []
      /\ analyze_portfolio_variations d
         = Run d [Print [Txt "No portfolio data found"]] (Returns tt))
  \/ (result_files d <> []
      /\ head (trace (analyze_portfolio_variations d)) = Some (Draw (Figure 10 6))
      /\ match result (analyze_portfolio_variations d) with
         | Raises _ =>
             (forall line, Print line ∉ trace (analyze_portfolio_variations d))
             /\ (forall t, PrintTable t ∉ trace (analyze_portfolio_variations d))
             /\ ((dir_after (analyze_portfolio_variations d) = d
                  /\ forall p, SaveFig p ∉ trace (analyze_portfolio_variations d))
                 \/ (dir_after (analyze_portfolio_variations d)
                     = write_file "sharpe_ratio_comparison.png" Image d
                     /\ SaveFig (os_path_join RESULTS_DIR "sharpe_ratio_comparison.png")
                        ∈ trace (analyze_portfolio_variations d)))
         | Returns _ =>
             dir_after (analyze_portfolio_variations d)
             = write_file "sharpe_ratio_comparison.png" Image d
             /\ exists before t,
                  trace (analyze_portfolio_variations d)
                  = before ++ [Print [Nl; Txt "Sharpe Ratio Statistics:"]; PrintTable t]
                  /\ SaveFig (os_path_join RESULTS_DIR "sharpe_ratio_comparison.png")
                     ∈ before
                  /\ (forall line, Print line ∉ before)
         end).
Proof.
  destruct (variation_loop_shape d (result_files d) [])
    as [(n & f & Hn & Hfile & Hf & Hloop)|(recs & Hrecs & Hloop)].
  - apply Forall_forall. intros ?. apply result_files_elem.
  - left. split; [by exists n, f|].
    unfold analyze_portfolio_variations.
    rewrite (bind_pure _ _ _ _ _ (glob_results d)). by apply bind_raises.
  - right. destruct (decide (result_files d = [])) as [Hnone|Hsome].
    + left. split; [done|]. unfold analyze_portfolio_variations.
      rewrite (bind_pure _ _ _ _ _ (glob_results d)), Hnone. reflexivity.
    + right. split; [done|].
      rewrite (analyze_portfolio_variations_cases d recs Hrecs Hsome).
      destruct (mapM mode_and_sharpe (variation_row <$> recs)) as [df|]; simpl.
      { split; [done|]. split; [done|].
        eexists [_; _; _; _; _; _; _], _. split; [reflexivity|].
        split; [set_solver|]. intros line Hin.
        repeat (apply elem_of_cons in Hin as [Hin|Hin]; [discriminate|]).
        by apply elem_of_nil in Hin. }
      destruct (boxplot_other (columns (variation_row <$> recs))) as [e|]; simpl.
      { split; [done|]. split; [|split].
        - intros line Hin. apply list_elem_of_singleton in Hin. discriminate.
        - intros t Hin. apply list_elem_of_singleton in Hin. discriminate.
        - left. split; [done|]. intros p Hin.
          apply list_elem_of_singleton in Hin. discriminate. }
      destruct (agg_other (columns (variation_row <$> recs))) as [e|t]; simpl.
      * split; [done|]. split; [|split].
        -- intros line Hin.
           repeat (apply elem_of_cons in Hin as [Hin|Hin]; [discriminate|]).
           by apply elem_of_nil in Hin.
        -- intros t Hin.
           repeat (apply elem_of_cons in Hin as [Hin|Hin]; [discriminate|]).
           by apply elem_of_nil in Hin.
        -- right. split; [done|]. set_solver.
      * split; [done|]. split; [done|].
        eexists [_; _; _; _; _; _; _], _. split; [reflexivity|].
        split; [set_solver|]. intros line Hin.
        repeat (apply elem_of_cons in Hin as [Hin|Hin]; [discriminate|]).
        by apply elem_of_nil in Hin.
Qed.

(** A result whose Sharpe ratio is a string, read with a library that
    plots such a column and rejects it in the aggregation: the chart is
    saved and no statistic is printed. *)
Example analyze_portfolio_variations_ratio_as_text :
  analyze_portfolio_variations (H := Textbook.lenient)
    [("optimal_portfolio_1.json",
      Json {[ "ExecutionMode" := VStr "parallel"; "SharpeRatio" := VStr "1.2" ]})]
  = Run [("optimal_portfolio_1.json",
          Json {[ "ExecutionMode" := VStr "parallel"; "SharpeRatio" := VStr "1.2" ]});
         ("sharpe_ratio_comparison.png", Image)]
        [Draw (Figure 10 6);
         Draw (BoxPlotOf [(VStr "parallel", VStr "1.2")]);
         Draw (Title [Txt "Sharpe Ratio Comparison: Parallel vs Sequential"]);
         Draw (YLabel "Sharpe Ratio");
         Draw (XLabel "Execution Mode");
         SaveFig (os_path_join RESULTS_DIR "sharpe_ratio_comparison.png");
         Show]
        (Raises TypeError).
Proof. reflexivity. Qed.

(** ** The order of enumeration *)

Lemma le_not_lt x y : F64.le x y = true -> F64.lt y x = false.
Proof. unfold F64.le, F64.lt, SFleb, SFltb. cases2 x y. Qed.

Lemma find_best_portfolio_scored d recs n data x :
  scored_results d = Some recs ->
  foldl better None recs = Some (n, data, x) ->
  find_best_portfolio d = Run d (best_lines n x) (Returns (Some data)).
Proof.
  intros Hrecs Hfold. apply mapM_Some in Hrecs. unfold find_best_portfolio.
  rewrite (bind_pure _ _ _ _ _ (glob_results d)).
  rewrite (bind_pure _ _ _ _ _ (find_best_loop d _ _ None Hrecs)).
  rewrite Hfold. reflexivity.
Qed.

(** A record whose ratio exceeds every other one wins the fold wherever
    it stands. *)
Lemma unique_maximum_wins (recs : list (string * gmap string value * float)) r :
  Forall (fun s => F64.finite s.2 = true) recs ->
  r ∈ recs ->
  (forall s, s ∈ recs -> s = r \/ F64.lt s.2 r.2 = true) ->
  foldl better None recs = Some r.
Proof.
  intros Hfin Hr Hmax.
  destruct (better_first_max recs Hfin) as (i & w & Hfold & Hi & Hle & _).
  { intros ->. by apply elem_of_nil in Hr. }
  rewrite Hfold. f_equal.
  destruct (Hmax w) as [->|Hlt]; [by eapply list_elem_of_lookup_2|done|].
  apply list_elem_of_lookup in Hr as [j Hj].
  pose proof (le_not_lt _ _ (Hle j r Hj)) as Hnot. congruence.
Qed.

(** X4: when one result file has a finite Sharpe ratio strictly greater
    than that of every other file, the finder selects it in whatever
    order the directory enumerates the files: two directories holding the
    same scored files in different orders give the same lines and the
    same record. *)
Theorem find_best_portfolio_order_independent (d d' : directory)
    (recs recs' : list (string * gmap string value * float)) i n data x :
  scored_results d = Some recs ->
  scored_results d' = Some recs' ->
  recs ≡ₚ recs' ->
  Forall (fun r => F64.finite r.2 = true) recs ->
  recs !! i = Some (n, data, x) ->
  (forall j s, recs !! j = Some s -> j <> i -> F64.lt s.2 x = true) ->
  find_best_portfolio d = Run d (best_lines n x) (Returns (Some data))
  /\ find_best_portfolio d' = Run d' (best_lines n x) (Returns (Some data)).
Proof.
  intros Hrecs Hrecs' Hperm Hfin Hi Hmax.
  assert (Hr : (n, data, x) ∈ recs) by (by eapply list_elem_of_lookup_2).
  assert (Hmax' : forall s, s ∈ recs -> s = (n, data, x) \/ F64.lt s.2 x = true).
  { intros s [j Hj]%list_elem_of_lookup.
    destruct (decide (j = i)) as [->|Hne]; [left; congruence|right; eauto]. }
  split.
  - apply (find_best_portfolio_scored d recs); [done|].
    by apply unique_maximum_wins.
  - apply (find_best_portfolio_scored d' recs'); [done|].
    apply unique_maximum_wins.
    + by rewrite <-Hperm.
    + by rewrite <-Hperm.
    + intros s Hs. apply Hmax'. by rewrite Hperm.
Qed.

Lemma find_best_portfolio_order_independent_witness :
  find_best_portfolio Sample.three_results
  = Run Sample.three_results
        (best_lines "optimal_portfolio_2.json" (F64.dec 12 1))
        (Returns (Some (Sample.result (F64.dec 12 1) "sequential")))
  /\ find_best_portfolio Sample2.reordered
     = Run Sample2.reordered
           (best_lines "optimal_portfolio_2.json" (F64.dec 12 1))
           (Returns (Some (Sample.result (F64.dec 12 1) "sequential"))).
Proof.
  apply (find_best_portfolio_order_independent
           Sample.three_results Sample2.reordered
           [("optimal_portfolio_1.json", Sample.result (F64.dec 5 1) "parallel", F64.dec 5 1);
            ("optimal_portfolio_2.json", Sample.result (F64.dec 12 1) "sequential", F64.dec 12 1);
            ("optimal_portfolio_3.json", Sample.result (F64.dec 9 1) "parallel", F64.dec 9 1)]
           [("optimal_portfolio_3.json", Sample.result (F64.dec 9 1) "parallel", F64.dec 9 1);
            ("optimal_portfolio_1.json", Sample.result (F64.dec 5 1) "parallel", F64.dec 5 1);
            ("optimal_portfolio_2.json", Sample.result (F64.dec 12 1) "sequential", F64.dec 12 1)]
           1%nat).
  - reflexivity.
  - reflexivity.
  - symmetry. apply (Permutation_cons_append [_; _]).
  - repeat constructor.
  - reflexivity.
  - intros [|[|[|j]]] s Hj Hne; simplify_eq/=; reflexivity.
Defined.

(** ** The plotter on an arbitrary record *)

Lemma lookup_write_file_eq n f d : lookup_file n (write_file n f d) = Some f.
Proof.
  induction d as [|[n0 g] d IH]; simpl.
  - by rewrite String.eqb_refl.
  - destruct (String.eqb_spec n0 n) as [->|Hne]; simpl.
    + by rewrite String.eqb_refl.
    + by destruct (String.eqb_spec n0 n).
Qed.

Lemma drawn_events_draw stocks : forallb is_draw (drawn_events stocks) = true.
Proof.
  unfold drawn_events. cbv zeta. cbn [app forallb is_draw andb].
  induction (enumerate _) as [|iv l IH]; [done|].
  rewrite bind_cons, forallb_app, IH, andb_true_r.
  unfold bar_label_events. by destruct (F64.le _ _).
Qed.

(** The outcomes of the plotter on a record that is not empty. *)
Lemma plot_best_portfolio_cases data d :
  data <> ∅ ->
  plot_best_portfolio (Some data) d
  = match data !! "Stocks" with
    | None => Run d [] (Raises (KeyError "Stocks"))
    | Some (VStocks (s :: l)) =>
        match data !! "SharpeRatio" with
        | None => Run d (drawn_events (s :: l)) (Raises (KeyError "SharpeRatio"))
        | Some (VNum sr) =>
            Run (write_file "best_portfolio_weights.png" Image d)
                (plot_events (s :: l) sr) (Returns tt)
        | Some (VStr _) => Run d (drawn_events (s :: l)) (Raises ValueError)
        | Some _ => Run d (drawn_events (s :: l)) (Raises TypeError)
        end
    | Some (VStocks []) | Some VNull => Run d [] (Raises (KeyError "Weight"))
    | Some _ => Run d [] (Raises ValueError)
    end.
Proof.
  intros Hne.
  destruct (data !! "Stocks") as [v|] eqn:Hstocks.
  2:{ unfold plot_best_portfolio, falsy. rewrite bool_decide_eq_false_2 by done.
      unfold getitem. by rewrite Hstocks. }
  destruct v as [|?|?|[|s l]];
    try (unfold plot_best_portfolio, falsy; rewrite bool_decide_eq_false_2 by done;
         unfold getitem; rewrite Hstocks; reflexivity).
  destruct (data !! "SharpeRatio") as [v|] eqn:Hsr.
  2:{ unfold plot_best_portfolio, falsy. rewrite bool_decide_eq_false_2 by done.
      unfold getitem. rewrite Hstocks, Hsr.
      etrans.
      { do 4 run. run_with ltac:(apply (for_events _ _ bar_label_run)).
        apply bind_raises. reflexivity. }
      unfold drawn_events. cbv zeta. cbn [app]. by rewrite app_nil_r. }
  destruct v as [|sr|?|?];
    try (unfold plot_best_portfolio, falsy; rewrite bool_decide_eq_false_2 by done;
         unfold getitem; rewrite Hstocks, Hsr;
         etrans;
         [ do 4 run; run_with ltac:(apply (for_events _ _ bar_label_run));
           run; apply bind_raises; reflexivity
         | unfold drawn_events; cbv zeta; cbn [app]; by rewrite app_nil_r ]).
  by apply plot_best_portfolio_run.
Qed.

(** X5: the plotter prints its no-data line, and does nothing else,
    exactly when it is given [None] or an empty record; on any other
    record it never prints that line alone. *)
Theorem plot_best_portfolio_no_data (p : option (gmap string value)) (d : directory) :
  plot_best_portfolio p d = Run d [no_data_line] (Returns tt) <-> falsy p = true.
Proof.
  split.
  - destruct p as [data|]; [|done]. unfold falsy.
    destruct (decide (data = ∅)) as [->|Hne]; [by rewrite bool_decide_eq_true_2|].
    rewrite (plot_best_portfolio_cases data d Hne).
    destruct (data !! "Stocks") as [[|?|?|[|s l]]|]; try discriminate.
    destruct (data !! "SharpeRatio") as [[|?|?|?]|]; discriminate.
  - destruct p as [data|]; [|done]. unfold falsy.
    intros ->%bool_decide_eq_true. reflexivity.
Qed.

(** X6: a plotter that raises has saved no file and printed no line: at
    most it has issued drawing commands.  A plotter that returns was
    either given no data, or has saved the chart under its fixed name. *)
Theorem plot_best_portfolio_saves_or_fails (p : option (gmap string value))
    (d : directory) :
  match result (plot_best_portfolio p d) with
  | Raises _ =>
      dir_after (plot_best_portfolio p d) = d
      /\ forallb is_draw (trace (plot_best_portfolio p d)) = true
  | Returns _ =>
      falsy p = true
      \/ (lookup_file "best_portfolio_weights.png"
                      (dir_after (plot_best_portfolio p d)) = Some Image
          /\ SaveFig (os_path_join RESULTS_DIR "best_portfolio_weights.png")
             ∈ trace (plot_best_portfolio p d))
  end.
Proof.
  destruct p as [data|]; [|by left].
  destruct (decide (data = ∅)) as [->|Hne]; [by left|].
  rewrite (plot_best_portfolio_cases data d Hne).
  destruct (data !! "Stocks") as [[|?|?|[|s l]]|]; try done.
  destruct (data !! "SharpeRatio") as [[|sr|?|?]|]; cbn [result dir_after trace];
    try (split; [done|apply drawn_events_draw]).
  right. split; [apply lookup_write_file_eq|].
  unfold plot_events. cbv zeta. rewrite !elem_of_app, !elem_of_cons. tauto.
Qed.

(** A record with asset entries and no Sharpe ratio: the bars are drawn,
    then the title raises, and nothing is saved or printed. *)
Example plot_best_portfolio_without_ratio :
  plot_best_portfolio
    (Some {[ "Stocks" := VStocks [Stock "AAPL" (F64.dec 6 1); Stock "IBM" (F64.dec 4 1)] ]})
    []
  = Run [] (drawn_events [Stock "AAPL" (F64.dec 6 1); Stock "IBM" (F64.dec 4 1)])
        (Raises (KeyError "SharpeRatio")).
Proof. reflexivity. Qed.

(** ** The benchmark analyzer on an arbitrary directory *)

Lemma speedup_lines_comparison `{Pandas} df :
  speedup_lines (summary_events df ++ comparison_events df) = [speedup_of df].
Proof.
  unfold summary_events, comparison_events, speedup_lines.
  rewrite !bind_app, speedup_lines_mean_labels, speedup_lines_value_labels.
  reflexivity.
Qed.

Lemma no_savefig_in (t : list event) :
  forallb (fun e => match e with SaveFig _ => false | _ => true end) t = true ->
  forall p, SaveFig p ∉ t.
Proof.
  intros Hall p Hin. rewrite forallb_forall in Hall.
  apply list_elem_of_In in Hin. by apply Hall in Hin.
Qed.

Lemma comparison_events_charts `{Pandas} df :
  SaveFig (os_path_join RESULTS_DIR "execution_time_comparison.png")
  ∈ comparison_events df
  /\ Draw (Bar (prod_map id agg_mean <$> groupby df)) ∈ comparison_events df
  /\ SaveFig (os_path_join RESULTS_DIR "avg_execution_time.png")
     ∈ comparison_events df.
Proof.
  unfold comparison_events. repeat split.
  - apply elem_of_app; right. apply elem_of_app; right. apply elem_of_app; left.
    by left.
  - apply elem_of_app; right. apply elem_of_app; right. apply elem_of_app; left.
    do 3 right. by left.
  - apply elem_of_app; right. apply elem_of_app; right. apply elem_of_app; right.
    apply elem_of_app; right. do 4 right. by left.
Qed.

(** X7: the benchmark analyzer ends in one of three ways.  It returns
    early with a diagnostic; or it raises, and then it has saved no chart,
    reported no speedup and left the directory as it was; or it returns
    having reported exactly one speedup and saved both charts.  So the
    test that guards the speedup never fails when it is reached, and no
    chart is ever written by a run that does not complete. *)
Theorem analyze_execution_times_outcomes `{Pandas} (d : directory) :
  (returns_early (analyze_execution_times d)
   /\ dir_after (analyze_execution_times d) = d
   /\ speedup_lines (trace (analyze_execution_times d)) = [])
  \/ (exists e, result (analyze_execution_times d) = Raises e
                /\ dir_after (analyze_execution_times d) = d
                /\ speedup_lines (trace (analyze_execution_times d)) = []
                /\ forall p, SaveFig p ∉ trace (analyze_execution_times d))
  \/ (result (analyze_execution_times d) = Returns tt
      /\ (exists x, speedup_lines (trace (analyze_execution_times d)) = [x])
      /\ SaveFig (os_path_join RESULTS_DIR "execution_time_comparison.png")
         ∈ trace (analyze_execution_times d)
      /\ SaveFig (os_path_join RESULTS_DIR "avg_execution_time.png")
         ∈ trace (analyze_execution_times d)
      /\ dir_after (analyze_execution_times d)
         = write_file "avg_execution_time.png" Image
             (write_file "execution_time_comparison.png" Image d)).
Proof.
  destruct (benchmark_log d) as [f|] eqn:Hlog.
  2:{ left. rewrite (analyze_execution_times_missing d Hlog).
      repeat split; by repeat constructor. }
  assert (Hf : (exists rows, f = Csv rows) \/ (forall rows, f <> Csv rows)).
  { destruct f; eauto; by right. }
  destruct Hf as [[rows ->]|Hf].
  2:{ right. left. exists ParserError.
      rewrite (analyze_execution_times_unreadable d f Hlog Hf).
      repeat split. by intros p ?%elem_of_nil. }
  rewrite (analyze_execution_times_after_guard d rows Hlog). cbv zeta.
  destruct (bool_decide (length (qualifying rows) < 5)%nat).
  { left. repeat split; by repeat constructor. }
  destruct (bool_decide ("parallel" ∈ (qualifying rows).*1));
    [destruct (bool_decide ("sequential" ∈ (qualifying rows).*1))|].
  - right. right. cbn [result trace dir_after].
    split; [done|]. split; [eexists; apply speedup_lines_comparison|].
    destruct (comparison_events_charts (qualifying rows)) as (Hc1 & _ & Hc2).
    repeat split; apply elem_of_app; by right.
  - right. left. exists (KeyError "sequential"). cbn [result trace dir_after].
    repeat split. by apply no_savefig_in.
  - right. left. exists (KeyError "parallel"). cbn [result trace dir_after].
    repeat split. by apply no_savefig_in.
Qed.

(** ** The order of the summary *)

Lemma sorted_two (ks : list string) a b :
  StronglySorted key_lt ks ->
  (forall k, k ∈ ks <-> k = a \/ k = b) ->
  key_lt a b ->
  ks = [a; b].
Proof.
  intros Hsorted Hks Hab.
  assert (Hba : ~ key_lt b a)
    by (intros Hba; exact (key_lt_irrefl a (key_lt_trans _ _ _ Hab Hba))).
  destruct Hsorted as [|k1 ks Hsorted Hk1].
  { exfalso. eapply elem_of_nil, Hks. by left. }
  assert (Hall : forall k, k ∈ ks -> k = b).
  { intros k Hk. pose proof (proj1 (Forall_forall _ _) Hk1 k Hk) as Hlt.
    destruct (proj1 (Hks k1) ltac:(left)) as [->| ->];
      (destruct (proj1 (Hks k) ltac:(by right)) as [->| ->]; [|done]).
    - by destruct (key_lt_irrefl a).
    - done. }
  assert (Hk1a : k1 = a).
  { destruct (proj1 (Hks k1) ltac:(left)) as [->| ->]; [done|].
    assert (Ha : a ∈ b :: ks) by (apply Hks; by left).
    apply elem_of_cons in Ha as [->|Ha]; [done|].
    pose proof (Hall a Ha). by subst. }
  subst k1. f_equal.
  assert (Hb : b ∈ ks).
  { assert (Hb : b ∈ a :: ks) by (apply Hks; by right).
    apply elem_of_cons in Hb as [->|Hb]; [by destruct (key_lt_irrefl a)|done]. }
  pose proof (sorted_NoDup _ Hsorted) as Hnodup.
  destruct ks as [|k2 ks]; [by apply elem_of_nil in Hb|].
  rewrite (Hall k2) by left. f_equal.
  destruct ks as [|k3 ks]; [done|]. exfalso.
  apply NoDup_cons in Hnodup as [Hnotin _]. apply Hnotin.
  rewrite (Hall k2), (Hall k3); [left|right; left|left].
Qed.

Lemma qualifying_modes rows k :
  k ∈ (qualifying rows).*1 -> k = "parallel" \/ k = "sequential".
Proof.
  unfold qualifying, isin_modes. intros ([k' t] & -> & Hin)%list_elem_of_fmap.
  apply list_elem_of_filter in Hin as [Hk _]. simpl in Hk.
  apply elem_of_cons in Hk as [->|Hk]; [by left|].
  apply list_elem_of_singleton in Hk as ->. by right.
Qed.

Lemma qualifying_group_keys rows :
  "parallel" ∈ (qualifying rows).*1 ->
  "sequential" ∈ (qualifying rows).*1 ->
  group_keys (qualifying rows) = ["parallel"; "sequential"].
Proof.
  intros Hpar Hseq. apply sorted_two.
  - apply group_keys_sorted.
  - intros k. rewrite elem_of_group_keys. split; [apply qualifying_modes|].
    by intros [->| ->].
  - reflexivity.
Qed.



(** ** Invariants of the stages *)

Lemma trace_bind {A B} (m : Py A) (k : A -> Py B) d :
  trace ((m ≫= k) d)
  = trace (m d) ++ match result (m d) with
                   | Returns a => trace (k a (dir_after (m d)))
                   | Raises _ => []
                   end.
Proof.
  rewrite bind_run. destruct (m d) as [d1 t1 [a|e]]; simpl.
  - by destruct (k a d1).
  - by rewrite app_nil_r.
Qed.

Lemma result_bind {A B} (m : Py A) (k : A -> Py B) d :
  result ((m ≫= k) d)
  = match result (m d) with
    | Returns a => result (k a (dir_after (m d)))
    | Raises e => Raises e
    end.
Proof.
  rewrite bind_run. destruct (m d) as [d1 t1 [a|e]]; simpl; [|done].
  by destruct (k a d1).
Qed.

Lemma dir_after_bind {A B} (m : Py A) (k : A -> Py B) d :
  dir_after ((m ≫= k) d)
  = match result (m d) with
    | Returns a => dir_after (k a (dir_after (m d)))
    | Raises e => dir_after (m d)
    end.
Proof.
  rewrite bind_run. destruct (m d) as [d1 t1 [a|e]]; simpl; [|done].
  by destruct (k a d1).
Qed.

#[global] Instance anything_refl : Reflexive anything.
Proof. done. Qed.

#[global] Instance anything_trans : Transitive anything.
Proof. done. Qed.

#[global] Instance untouched_refl : Reflexive untouched.
Proof. by intros d. Qed.

#[global] Instance untouched_trans : Transitive untouched.
Proof.
  intros d1 d2 d3 [H12 P12] [H23 P23]. split.
  - intros n Hn. by rewrite H23, H12.
  - by etrans.
Qed.

Section Keeps.

Context (I : relation directory) (P : event -> Prop).
Context `{!Reflexive I, !Transitive I}.

Lemma keeps_pure {A} (m : Py A) :
  (forall d, dir_after (m d) = d /\ trace (m d) = []) -> keeps I P m.
Proof. intros Hm d. destruct (Hm d) as [-> ->]. by split. Qed.

Lemma keeps_ret {A} (a : A) : keeps I P (mret a).
Proof. by apply keeps_pure. Qed.

Lemma keeps_raise {A} e : keeps I P (raise (A := A) e).
Proof. by apply keeps_pure. Qed.

Lemma keeps_emit e : P e -> keeps I P (emit e).
Proof. intros He d. split; [done|]. by constructor. Qed.

Lemma keeps_bind {A B} (m : Py A) (k : A -> Py B) :
  keeps I P m -> (forall a, keeps I P (k a)) -> keeps I P (m ≫= k).
Proof.
  intros Hm Hk d. rewrite dir_after_bind, trace_bind.
  destruct (Hm d) as [HI HP]. destruct (result (m d)) as [a|e].
  - destruct (Hk a (dir_after (m d))) as [HI' HP']. split; [by etrans|].
    by apply Forall_app.
  - split; [done|]. by rewrite app_nil_r.
Qed.

Lemma keeps_for_each {A S} (body : A -> S -> Py S) (l : list A) (s : S) :
  (forall x s, keeps I P (body x s)) -> keeps I P (for_each body l s).
Proof.
  intros Hbody. revert s. induction l as [|x l IH]; intros s; simpl.
  - apply keeps_ret.
  - by apply keeps_bind.
Qed.

Lemma keeps_for {A} (body : A -> Py unit) (l : list A) :
  (forall x, keeps I P (body x)) -> keeps I P (for_ body l).
Proof. intros Hbody. by apply keeps_for_each. Qed.

Lemma keeps_loc {A} (t : list (string * A)) k : keeps I P (loc t k).
Proof.
  induction t as [|[k0 a] t IH]; simpl; [apply keeps_raise|].
  destruct (String.eqb k0 k); [apply keeps_ret|done].
Qed.

Lemma keeps_glob dir pre suf : keeps I P (glob dir pre suf).
Proof. by apply keeps_pure. Qed.

Lemma keeps_open p : keeps I P (open p).
Proof. apply keeps_pure. intros d. unfold open. by destruct (resolve p d). Qed.

Lemma keeps_exists p : keeps I P (os_path_exists p).
Proof. by apply keeps_pure. Qed.

Lemma keeps_savefig p :
  (forall d, I d (dir_after (savefig p d))) -> P (SaveFig p) -> keeps I P (savefig p).
Proof. intros HI HP d. split; [done|]. by constructor. Qed.

End Keeps.

Ltac keeps_step solve_side :=
  lazymatch goal with
  | |- Reflexive _ => apply _
  | |- Transitive _ => apply _
  | |- forall _, _ => intros ?
  | |- keeps _ _ (mret _) => apply keeps_ret
  | |- keeps _ _ (raise _) => apply keeps_raise
  | |- keeps _ _ (emit _) => apply keeps_emit
  | |- keeps _ _ (print _) => apply keeps_emit
  | |- keeps _ _ (draw _) => apply keeps_emit
  | |- keeps _ _ show => apply keeps_emit
  | |- keeps _ _ (loc _ _) => apply keeps_loc
  | |- keeps _ _ (glob _ _ _) => apply keeps_glob
  | |- keeps _ _ (open _) => apply keeps_open
  | |- keeps _ _ (os_path_exists _) => apply keeps_exists
  | |- keeps _ _ (savefig _) => apply keeps_savefig
  | |- keeps _ _ (_ ≫= _) => apply keeps_bind
  | |- keeps _ _ (for_ _ _) => apply keeps_for
  | |- keeps _ _ (for_each _ _ _) => apply keeps_for_each
  | |- keeps _ _ (if ?b then _ else _) => destruct b
  | |- keeps _ _ (match ?x with _ => _ end) => destruct x
  | |- keeps _ _ _ => fail
  | |- _ => solve [solve_side]
  end.

Ltac keeps_all solve_side :=
  repeat first
    [ keeps_step solve_side
    | progress (unfold getitem, fmt, local, py_gt, DataFrame, load_json_data,
                  read_csv, bar_label, mean_label, value_label, find_best_step,
                  variation_step, boxplot, grouped_stats;
                cbv beta zeta) ].

(** *** The charts are the only files written *)

Lemma write_file_untouched name d :
  name ∈ chart_names -> untouched d (write_file name Image d).
Proof.
  intros Hname. split.
  - intros n Hn. apply lookup_write_file_ne. by intros ->.
  - destruct (write_file_names name Image d) as [->| ->]; [done|].
    by apply prefix_app_r.
Qed.

Ltac solve_chart :=
  first
    [ apply write_file_untouched; apply (bool_decide_unpack _); reflexivity
    | intros ? ?; first [discriminate
                        | simplify_eq; split; [reflexivity|];
                          apply (bool_decide_unpack _); reflexivity] ].

Lemma find_best_portfolio_charts : keeps untouched saves_charts_only find_best_portfolio.
Proof. unfold find_best_portfolio. keeps_all solve_chart. Qed.

Lemma plot_best_portfolio_charts p :
  keeps untouched saves_charts_only (plot_best_portfolio p).
Proof. unfold plot_best_portfolio. keeps_all solve_chart. Qed.

Lemma analyze_execution_times_charts `{Pandas} :
  keeps untouched saves_charts_only analyze_execution_times.
Proof. unfold analyze_execution_times. keeps_all solve_chart. Qed.

Lemma analyze_portfolio_variations_charts `{Pandas} :
  keeps untouched saves_charts_only analyze_portfolio_variations.
Proof.
  unfold analyze_portfolio_variations. keeps_all solve_chart.
Qed.

(** X10: whatever the directory holds and however the run ends, [main]
    writes nothing but its four charts: every file saved is one of them,
    every other entry of the directory keeps its content, and the entries
    that were there keep their places in the enumeration. *)
Theorem main_writes_charts_only `{Pandas} (d : directory) :
  (forall n, n ∉ chart_names -> lookup_file n (dir_after (main d)) = lookup_file n d)
  /\ d.*1 `prefix_of` (dir_after (main d)).*1
  /\ (forall p, SaveFig p ∈ trace (main d) ->
               dirname p = RESULTS_DIR /\ basename p ∈ chart_names).
Proof.
  assert (Hmain : keeps untouched saves_charts_only main).
  { unfold main.
    repeat first
      [ apply find_best_portfolio_charts
      | apply plot_best_portfolio_charts
      | apply analyze_execution_times_charts
      | apply analyze_portfolio_variations_charts
      | keeps_step solve_chart ]. }
  destruct (Hmain d) as [[Hlookup Hprefix] Hevents].
  repeat split; [done..| |].
  - intros. by eapply (proj1 (Forall_forall _ _) Hevents (SaveFig p)).
  - intros. by eapply (proj1 (Forall_forall _ _) Hevents (SaveFig p)).
Qed.

(** *** Every write is a recorded [savefig] *)

Lemma apply_writes_app t1 t2 d :
  apply_writes (t1 ++ t2) d = apply_writes t2 (apply_writes t1 d).
Proof. apply foldl_app. Qed.

Lemma logged_pure {A} (m : Py A) :
  (forall d, dir_after (m d) = d /\ trace (m d) = []) -> logged m.
Proof. intros Hm d. by destruct (Hm d) as [-> ->]. Qed.

Lemma logged_emit e : (forall d, apply_write d e = d) -> logged (emit e).
Proof. intros He d. simpl. by rewrite He. Qed.

Lemma logged_savefig p : logged (savefig p).
Proof. by intros d. Qed.

Lemma logged_bind {A B} (m : Py A) (k : A -> Py B) :
  logged m -> (forall a, logged (k a)) -> logged (m ≫= k).
Proof.
  intros Hm Hk d. rewrite dir_after_bind, trace_bind, apply_writes_app, <-Hm.
  destruct (result (m d)) as [a|e]; [apply Hk|done].
Qed.

Lemma logged_for_each {A S} (body : A -> S -> Py S) (l : list A) (s : S) :
  (forall x s, logged (body x s)) -> logged (for_each body l s).
Proof.
  intros Hbody. revert s. induction l as [|x l IH]; intros s; simpl.
  - by apply logged_pure.
  - by apply logged_bind.
Qed.

Lemma logged_for {A} (body : A -> Py unit) (l : list A) :
  (forall x, logged (body x)) -> logged (for_ body l).
Proof. intros Hbody. by apply logged_for_each. Qed.

Lemma logged_loc {A} (t : list (string * A)) k : logged (loc t k).
Proof.
  induction t as [|[k0 a] t IH]; simpl; [by apply logged_pure|].
  destruct (String.eqb k0 k); [by apply logged_pure|done].
Qed.

Lemma logged_open p : logged (open p).
Proof. apply logged_pure. intros d. unfold open. by destruct (resolve p d). Qed.

Ltac logged_step :=
  lazymatch goal with
  | |- forall _, _ => intros ?
  | |- logged (mret _) => by apply logged_pure
  | |- logged (raise _) => by apply logged_pure
  | |- logged (emit _) => by apply logged_emit
  | |- logged (print _) => by apply logged_emit
  | |- logged (draw _) => by apply logged_emit
  | |- logged show => by apply logged_emit
  | |- logged (loc _ _) => apply logged_loc
  | |- logged (glob _ _ _) => by apply logged_pure
  | |- logged (open _) => apply logged_open
  | |- logged (os_path_exists _) => by apply logged_pure
  | |- logged (savefig _) => apply logged_savefig
  | |- logged (_ ≫= _) => apply logged_bind
  | |- logged (for_ _ _) => apply logged_for
  | |- logged (for_each _ _ _) => apply logged_for_each
  | |- logged (if ?b then _ else _) => destruct b
  | |- logged (match ?x with _ => _ end) => destruct x
  end.

Ltac logged_all :=
  repeat first
    [ logged_step
    | progress (unfold getitem, fmt, local, py_gt, DataFrame, load_json_data,
                  read_csv, bar_label, mean_label, value_label, find_best_step,
                  variation_step, boxplot, grouped_stats;
                cbv beta zeta) ].

Lemma logged_main `{Pandas} : logged main.
Proof.
  unfold main, find_best_portfolio, plot_best_portfolio, analyze_execution_times,
    analyze_portfolio_variations.
  logged_all.
Qed.

Lemma write_file_id n f d : lookup_file n d = Some f -> write_file n f d = d.
Proof.
  induction d as [|[n0 g] d IH]; simpl; [done|].
  destruct (String.eqb_spec n0 n) as [->|Hne]; [by intros [= ->]|].
  intros Hn. by rewrite IH.
Qed.

Lemma lookup_apply_write n d e :
  lookup_file n d = Some Image -> lookup_file n (apply_write d e) = Some Image.
Proof.
  intros Hn. destruct e as [| | |p|]; simpl; try done.
  destruct (String.eqb (dirname p) RESULTS_DIR); [|done].
  destruct (decide (n = basename p)) as [->|Hne].
  - apply lookup_write_file_eq.
  - by rewrite lookup_write_file_ne.
Qed.

Lemma lookup_apply_writes n t d :
  lookup_file n d = Some Image -> lookup_file n (apply_writes t d) = Some Image.
Proof.
  revert d. induction t as [|e t IH]; intros d Hn; [done|].
  simpl. by apply IH, lookup_apply_write.
Qed.

(** Writing the same charts again changes nothing. *)
Lemma apply_writes_absorbed t d :
  (forall p, SaveFig p ∈ t -> String.eqb (dirname p) RESULTS_DIR = true ->
             lookup_file (basename p) d = Some Image) ->
  apply_writes t d = d.
Proof.
  induction t as [|e t IH]; intros Hd; [done|]. simpl.
  assert (He : apply_write d e = d).
  { destruct e as [| | |p|]; simpl; try done.
    destruct (String.eqb (dirname p) RESULTS_DIR) eqn:Hdir; [|done].
    apply write_file_id, Hd; [by left|done]. }
  rewrite He. apply IH. intros p Hp. apply Hd. by right.
Qed.

Lemma apply_writes_written t d p :
  SaveFig p ∈ t -> String.eqb (dirname p) RESULTS_DIR = true ->
  lookup_file (basename p) (apply_writes t d) = Some Image.
Proof.
  revert d. induction t as [|e t IH]; intros d Hp Hdir; [by apply elem_of_nil in Hp|].
  simpl. apply elem_of_cons in Hp as [<-|Hp]; [|by apply IH].
  apply lookup_apply_writes. simpl. rewrite Hdir. apply lookup_write_file_eq.
Qed.

Lemma apply_writes_idem t d : apply_writes t (apply_writes t d) = apply_writes t d.
Proof. apply apply_writes_absorbed. intros p. apply apply_writes_written. Qed.

(** X11: a second run of [main] leaves the directory exactly as the
    first run left it: it writes the same charts over themselves. *)
Theorem main_twice_same_directory `{Pandas} (d : directory) :
  dir_after (main (dir_after (main d))) = dir_after (main d).
Proof.
  assert (Hrefl : same_inputs d d) by done.
  destruct (stable_main d d (Forall_nil_2 _) Hrefl) as (_ & _ & _ & Hself).
  destruct (stable_main d (dir_after (main d)) (Forall_nil_2 _) Hself)
    as (Ht & _ & _ & _).
  rewrite (logged_main (dir_after (main d))), <-Ht, (logged_main d).
  apply apply_writes_idem.
Qed.

(** *** The lines of [main] *)

Lemma keeps_bind_when {A B} (I : relation directory) (P : event -> Prop)
    `{!Transitive I} (Q : A -> Prop) (m : Py A) (k : A -> Py B) :
  keeps I P m ->
  (forall d a, result (m d) = Returns a -> Q a) ->
  (forall a, Q a -> keeps I P (k a)) ->
  keeps I P (m ≫= k).
Proof.
  intros Hm HQ Hk d. rewrite dir_after_bind, trace_bind.
  destruct (Hm d) as [HI HP]. destruct (result (m d)) as [a|e] eqn:Hres.
  - destruct (Hk a (HQ d a Hres) (dir_after (m d))) as [HI' HP'].
    split; [by etrans|]. by apply Forall_app.
  - split; [done|]. by rewrite app_nil_r.
Qed.

Lemma finishes_emit line : finishes_with line (emit line).
Proof. by intros d. Qed.

Lemma finishes_bind {A B} line (m : Py A) (k : A -> Py B) :
  keeps anything (is_not line) m ->
  (forall a, finishes_with line (k a)) ->
  finishes_with line (m ≫= k).
Proof.
  intros Hm Hk d. rewrite result_bind, trace_bind.
  destruct (Hm d) as [_ HP].
  assert (Hnot : line ∉ trace (m d)).
  { intros Hin. by apply (proj1 (Forall_forall _ _) HP line Hin). }
  destruct (result (m d)) as [a|e].
  - specialize (Hk a (dir_after (m d))).
    destruct (result (k a (dir_after (m d)))).
    + destruct (trace (k a (dir_after (m d)))) as [|e0 t _] using rev_ind;
        [done|]. by rewrite app_assoc, last_snoc in *.
    + rewrite elem_of_app. tauto.
  - by rewrite app_nil_r.
Qed.

Ltac solve_is_not :=
  first [ exact I
        | unfold is_not, completion_line, no_data_line; discriminate ].

Lemma find_best_portfolio_lines line :
  (forall n, Print [Txt "Best portfolio found in: "; Txt n] <> line) ->
  (forall x, Print [Txt "Sharpe Ratio: "; x] <> line) ->
  keeps anything (is_not line) find_best_portfolio.
Proof.
  intros H1 H2. unfold find_best_portfolio.
  keeps_all ltac:(first [exact I | apply H1 | apply H2]).
Qed.

Lemma plot_best_portfolio_body_lines data :
  data <> ∅ ->
  keeps anything (is_not no_data_line) (plot_best_portfolio (Some data)).
Proof.
  intros Hne. unfold plot_best_portfolio, falsy.
  rewrite bool_decide_eq_false_2 by done. keeps_all solve_is_not.
Qed.

Lemma plot_best_portfolio_lines p :
  keeps anything (is_not completion_line) (plot_best_portfolio p).
Proof. unfold plot_best_portfolio. keeps_all solve_is_not. Qed.

Lemma analyze_execution_times_lines `{Pandas} line :
  line = completion_line \/ line = no_data_line ->
  keeps anything (is_not line) analyze_execution_times.
Proof.
  intros [-> | ->]; unfold analyze_execution_times; keeps_all solve_is_not.
Qed.

Lemma analyze_portfolio_variations_lines `{Pandas} line :
  line = completion_line \/ line = no_data_line ->
  keeps anything (is_not line) analyze_portfolio_variations.
Proof.
  intros [-> | ->]; unfold analyze_portfolio_variations; keeps_all solve_is_not.
Qed.

(** X12: [main] prints its completion line exactly when every stage has
    returned, and then it is the last thing it does; a run that raises
    has not printed it. *)
Theorem main_completion_line `{Pandas} (d : directory) :
  match result (main d) with
  | Returns _ =>
      last (trace (main d))
      = Some (Print [Nl; Txt "Analysis complete. Plots saved to"; Txt " ";
                     Txt "../results"])
  | Raises _ =>
      Print [Nl; Txt "Analysis complete. Plots saved to"; Txt " "; Txt "../results"]
      ∉ trace (main d)
  end.
Proof.
  assert (Hmain : finishes_with completion_line main).
  { unfold main.
    repeat first
      [ apply finishes_emit
      | apply finishes_bind;
        [ first [ by apply find_best_portfolio_lines
                | apply plot_best_portfolio_lines
                | apply analyze_execution_times_lines; by left
                | apply analyze_portfolio_variations_lines; by left
                | apply keeps_emit; [apply _|solve_is_not] ]
        | intros ? ] ]. }
  exact (Hmain d).
Qed.

(** X13: [main] never prints the plotter's no-data line: the finder
    either raises, and the plotter is not called, or hands it a record
    that is not empty. *)
Theorem main_never_prints_no_data `{Pandas} (d : directory) :
  Print [Txt "No portfolio data available"] ∉ trace (main d).
Proof.
  assert (Hmain : keeps anything (is_not no_data_line) main).
  { unfold main.
    apply keeps_bind; [apply _|apply keeps_emit; [apply _|solve_is_not]|intros _].
    apply keeps_bind; [apply _|apply keeps_emit; [apply _|solve_is_not]|intros _].
    apply (keeps_bind_when _ _ (fun p => exists data, p = Some data /\ data <> ∅)).
    - by apply find_best_portfolio_lines.
    - intros d' p Hp.
      destruct (find_best_portfolio_shape d')
        as [[e He]|(n & data & x & _ & _ & Hscore & _ & He)];
        rewrite He in Hp; [done|]. injection Hp as <-.
      exists data. split; [done|]. intros ->. by rewrite lookup_empty in Hscore.
    - intros p (data & -> & Hne).
      repeat first
        [ by apply plot_best_portfolio_body_lines
        | apply analyze_execution_times_lines; by right
        | apply analyze_portfolio_variations_lines; by right
        | keeps_step solve_is_not ]. }
  intros Hin. destruct (Hmain d) as [_ HP].
  by apply (proj1 (Forall_forall _ _) HP _ Hin).
Qed.

(** ** Result files without a Sharpe ratio *)

Lemma lt_keeps_above x y z :
  F64.lt x y = true -> F64.lt x z = false -> F64.lt y z = false.
Proof.
  intros Hxy Hxz. destruct (F64.lt y z) eqn:Hyz; [|done].
  by rewrite (lt_trans _ _ _ Hxy Hyz) in Hxz.
Qed.

Lemma better_keeps_above c r z :
  F64.lt c.2 z = false ->
  exists c', better (Some c) r = Some c' /\ F64.lt c'.2 z = false.
Proof.
  intros Hc. simpl. destruct (F64.lt c.2 r.2) eqn:Hlt.
  - exists r. split; [done|]. by apply (lt_keeps_above c.2).
  - by exists c.
Qed.

(** Once the running maximum is not below 0, the scan skips every file
    without the field and is the fold of [better] over the others. *)
Lemma find_best_loop_skips d ns es c :
  Forall2 (fun n e => read_file d n = Some e) ns es ->
  F64.lt c.2 (F64.of_Z 0) = false ->
  for_each find_best_step (os_path_join RESULTS_DIR <$> ns) (scan_of (Some c)) d
  = Run d [] (Returns (scan_of (foldl better (Some c) (with_ratio es)))).
Proof.
  intros H. revert c. induction H as [|n e ns es Hn _ IH]; intros c Hc.
  - reflexivity.
  - unfold read_file in Hn.
    destruct (lookup_file n d) as [[data| | |]|] eqn:Hfile; try discriminate.
    destruct (data !! "SharpeRatio") as [[|x| |]|] eqn:Hscore;
      try discriminate; injection Hn as <-.
    + assert (Hs : scored_file d n = Some (n, data, x)).
      { unfold scored_file. by rewrite Hfile, Hscore. }
      rewrite fmap_cons. cbn [for_each].
      rewrite (bind_pure _ _ _ _ _ (find_best_step_scored _ _ _ (Some c) Hs)).
      destruct (better_keeps_above c (n, data, x) _ Hc) as (c' & Hc' & Habove).
      unfold with_ratio. cbn [omap list_omap fmap option_fmap option_map fst snd foldl].
      rewrite Hc'. by apply IH.
    + rewrite fmap_cons. cbn [for_each].
      destruct c as [[n' data'] b]. simpl in Hc.
      pose proof (find_best_step_missing_score d n data
                    (scan_of (Some (n', data', b))) b Hfile Hscore eq_refl) as Hstep.
      rewrite Hc in Hstep. rewrite (bind_pure _ _ _ _ _ Hstep).
      by apply IH.
Qed.

(** X14: result files without the Sharpe ratio do no harm once a ratio of
    0 or more has been read.  When the first file read has a finite ratio
    that is not below 0, and every ratio present is finite, the finder
    skips the files without the field and returns the first maximum
    among the files that have it. *)
Theorem find_best_portfolio_skips_unscored (d : directory) n0 data0 x0 rest :
  read_results d = Some ((n0, data0, Some x0) :: rest) ->
  F64.le (F64.of_Z 0) x0 = true ->
  Forall (fun r => F64.finite r.2 = true)
         (with_ratio ((n0, data0, Some x0) :: rest)) ->
  exists i n data x,
    with_ratio ((n0, data0, Some x0) :: rest) !! i = Some (n, data, x)
    /\ find_best_portfolio d = Run d (best_lines n x) (Returns (Some data))
    /\ (forall j s, with_ratio ((n0, data0, Some x0) :: rest) !! j = Some s ->
                   F64.le s.2 x = true)
    /\ (forall j s, with_ratio ((n0, data0, Some x0) :: rest) !! j = Some s ->
                   (j < i)%nat -> F64.lt s.2 x = true).
Proof.
  intros Hread Hzero Hfin. unfold read_results in Hread.
  apply mapM_Some in Hread.
  change (with_ratio ((n0, data0, Some x0) :: rest))
    with ((n0, data0, x0) :: with_ratio rest) in *.
  destruct (better_first_max _ Hfin) as (i & [[n data] x] & Hfold & Hi & Hle & Hlt);
    [done|].
  exists i, n, data, x. split; [done|]. split; [|done].
  inversion Hread as [|n0' e ns es Hn Hrest Hns]; subst.
  assert (Hx0 : F64.finite x0 = true) by (by inversion Hfin).
  assert (Hs : scored_file d n0' = Some (n0, data0, x0)).
  { unfold read_file in Hn. unfold scored_file.
    destruct (lookup_file n0' d) as [[data'| | |]|]; try discriminate.
    destruct (data' !! "SharpeRatio") as [[|x'| |]|]; try discriminate;
      by simplify_eq. }
  assert (Hfirst : better None (n0, data0, x0) = Some (n0, data0, x0)).
  { simpl. by rewrite (neg_inf_lt_finite _ Hx0). }
  assert (Hloop :
    for_each find_best_step (os_path_join RESULTS_DIR <$> n0' :: ns) (scan_of None) d
    = Run d [] (Returns (scan_of (Some (n, data, x))))).
  { rewrite fmap_cons. cbn [for_each].
    rewrite (bind_pure _ _ _ _ _ (find_best_step_scored _ _ _ None Hs)), Hfirst.
    rewrite (find_best_loop_skips d ns rest (n0, data0, x0) Hrest
               (le_not_lt _ _ Hzero)).
    change (foldl better (better None (n0, data0, x0)) (with_ratio rest)
            = Some (n, data, x)) in Hfold.
    rewrite Hfirst in Hfold. by rewrite Hfold. }
  unfold find_best_portfolio.
  rewrite (bind_pure _ _ _ _ _ (glob_results d)), <-Hns.
  by rewrite (bind_pure _ _ _ _ _ Hloop).
Qed.

Lemma find_best_portfolio_skips_unscored_witness :
  exists i n data x,
    with_ratio
      [("optimal_portfolio_1.json", Sample.result (F64.dec 5 1) "parallel", Some (F64.dec 5 1));
       ("optimal_portfolio_2.json", {[ "ExecutionMode" := VStr "sequential" ]}, None);
       ("optimal_portfolio_3.json", Sample.result (F64.dec 9 1) "parallel", Some (F64.dec 9 1))]
      !! i = Some (n, data, x)
    /\ find_best_portfolio Sample2.with_unscored_file
       = Run Sample2.with_unscored_file (best_lines n x) (Returns (Some data))
    /\ (forall j s,
          with_ratio
            [("optimal_portfolio_1.json", Sample.result (F64.dec 5 1) "parallel", Some (F64.dec 5 1));
             ("optimal_portfolio_2.json", {[ "ExecutionMode" := VStr "sequential" ]}, None);
             ("optimal_portfolio_3.json", Sample.result (F64.dec 9 1) "parallel", Some (F64.dec 9 1))]
            !! j = Some s -> F64.le s.2 x = true)
    /\ (forall j s,
          with_ratio
            [("optimal_portfolio_1.json", Sample.result (F64.dec 5 1) "parallel", Some (F64.dec 5 1));
             ("optimal_portfolio_2.json", {[ "ExecutionMode" := VStr "sequential" ]}, None);
             ("optimal_portfolio_3.json", Sample.result (F64.dec 9 1) "parallel", Some (F64.dec 9 1))]
            !! j = Some s -> (j < i)%nat -> F64.lt s.2 x = true).
Proof.
  apply (find_best_portfolio_skips_unscored Sample2.with_unscored_file).
  - reflexivity.
  - reflexivity.
  - repeat constructor.
Defined.

(** ** Lines of the log with other labels *)

Lemma qualifying_filter rows :
  qualifying (filter (fun r => Bench.ExecutionMode r ∈ ["parallel"; "sequential"]) rows)
  = qualifying rows.
Proof.
  unfold qualifying, isin_modes, with_TimeSec.
  induction rows as [|r rows IH]; [done|].
  rewrite fmap_cons, !filter_cons. cbn [fst].
  destruct (decide (Bench.ExecutionMode r ∈ ["parallel"; "sequential"])) as [Hr|Hr].
  - rewrite fmap_cons, filter_cons. cbn [fst].
    rewrite decide_True by done. by rewrite IH.
  - done.
Qed.

(** X15: lines of the benchmark log whose label is neither of the two
    modes are ignored altogether: they count neither toward the guard of
    five rows nor in the statistics nor in the charts.  Two logs with the
    same lines of the two modes, in the same order, give the same events
    and the same outcome. *)
Theorem analyze_execution_times_ignores_other_labels `{Pandas}
    (d d' : directory) rows rows' :
  benchmark_log d = Some (Csv rows) ->
  benchmark_log d' = Some (Csv rows') ->
  filter (fun r => Bench.ExecutionMode r ∈ ["parallel"; "sequential"]) rows
  = filter (fun r => Bench.ExecutionMode r ∈ ["parallel"; "sequential"]) rows' ->
  trace (analyze_execution_times d) = trace (analyze_execution_times d')
  /\ result (analyze_execution_times d) = result (analyze_execution_times d').
Proof.
  intros Hlog Hlog' Hsame.
  rewrite (analyze_execution_times_after_guard d rows Hlog).
  rewrite (analyze_execution_times_after_guard d' rows' Hlog'). cbv zeta.
  rewrite <-(qualifying_filter rows), <-(qualifying_filter rows'), Hsame.
  generalize (qualifying (filter (fun r => Bench.ExecutionMode r ∈ ["parallel"; "sequential"]) rows')).
  intros df.
  destruct (bool_decide (length df < 5)%nat); [done|].
  destruct (bool_decide ("parallel" ∈ df.*1)); [|done].
  by destruct (bool_decide ("sequential" ∈ df.*1)).
Qed.

Lemma analyze_execution_times_ignores_other_labels_witness :
  trace (analyze_execution_times (H := Textbook.pandas)
           [("benchmarks.log", Csv Sample2.with_warmup)])
  = trace (analyze_execution_times (H := Textbook.pandas)
             [("benchmarks.log", Csv Sample.five_runs)])
  /\ result (analyze_execution_times (H := Textbook.pandas)
               [("benchmarks.log", Csv Sample2.with_warmup)])
     = result (analyze_execution_times (H := Textbook.pandas)
                 [("benchmarks.log", Csv Sample.five_runs)]).
Proof.
  apply (analyze_execution_times_ignores_other_labels (H := Textbook.pandas)
           [("benchmarks.log", Csv Sample2.with_warmup)]
           [("benchmarks.log", Csv Sample.five_runs)]
           Sample2.with_warmup Sample.five_runs).
  - reflexivity.
  - reflexivity.
  - reflexivity.
Defined.
